(** * JARVIS command pipeline: intent resolver, validator, dispatcher, producers

    A shallow embedding of the core of the assistant
    ([jarvis/core/nlp_processor.py], [jarvis/core/command_dispatcher.py],
    [jarvis/core/event_loop.py]) and the properties of its specification.

    Conventions of the embedding:
    - Python [str] is [string] (ASCII text); [float] is the kernel's binary64
      [float]; [int] is [Z]; a [dict] with string keys is a [gmap string _];
      the ordered pattern table is an association list.
    - Wall-clock readings ([datetime.now()], [time.time()]) are [Z]
      microseconds and are handed to the function that reads them: one
      reading [now] for all the readings of a call, and for
      [dispatch_command] also the reading [start_time] taken at entry.
    - An exception is a value of [exn]; a call that can raise returns
      [outcome]; the dispatcher, which also takes a lock, runs in the monad
      [M] whose results are return, raise, or blocked for ever.
    - Python's [re] and [hashlib] are library code: the definitions use them
      through the class [Runtime]; [py_runtime] implements it. *)

From Stdlib Require Import ZArith Floats Ascii Bool Lia.
From stdpp Require Import gmap strings list pretty.

Set Warnings "-inexact-float".
Local Open Scope Z_scope.

(** ** Python strings *)

Module Str.

Definition to_list (s : string) : list ascii := String.list_ascii_of_string s.
Definition of_list (l : list ascii) : string := String.string_of_list_ascii l.

(** [str.isspace] on one ASCII character: TAB..CR, FS..US and space. *)
Definition isspace (c : ascii) : bool :=
  let n := Z.of_nat (nat_of_ascii c) in
  ((9 <=? n) && (n <=? 13)) || ((28 <=? n) && (n <=? 32)).

Definition isdigit (c : ascii) : bool :=
  let n := Z.of_nat (nat_of_ascii c) in (48 <=? n) && (n <=? 57).

Definition isupper (c : ascii) : bool :=
  let n := Z.of_nat (nat_of_ascii c) in (65 <=? n) && (n <=? 90).

Definition lower_char (c : ascii) : ascii :=
  if isupper c then ascii_of_nat (nat_of_ascii c + 32) else c.

(** [s.lower()] *)
Fixpoint lower (s : string) : string :=
  match s with
  | EmptyString => EmptyString
  | String c s' => String (lower_char c) (lower s')
  end.

Fixpoint lstrip (s : string) : string :=
  match s with
  | EmptyString => EmptyString
  | String c s' => if isspace c then lstrip s' else s
  end.

Definition rev (s : string) : string := of_list (List.rev (to_list s)).

Definition rstrip (s : string) : string := rev (lstrip (rev s)).

(** [s.strip()] *)
Definition strip (s : string) : string := rstrip (lstrip s).

(** [bool(s)]: a string is truthy when it is not empty. *)
Definition truthy (s : string) : bool :=
  match s with EmptyString => false | String _ _ => true end.

(** [needle in hay] *)
Fixpoint contains (needle hay : string) : bool :=
  String.prefix needle hay ||
  match hay with
  | EmptyString => false
  | String _ hay' => contains needle hay'
  end.

Fixpoint has_char (c : ascii) (s : string) : bool :=
  match s with
  | EmptyString => false
  | String d s' => Ascii.eqb c d || has_char c s'
  end.

(** [s.split(sep)[-1]] for a one-character separator. *)
Fixpoint last_field (sep : ascii) (s : string) : string :=
  match s with
  | EmptyString => EmptyString
  | String c s' =>
      if has_char sep s' then last_field sep s'
      else if Ascii.eqb c sep then s' else s
  end.

Definition digit_val (c : ascii) : Z := Z.of_nat (nat_of_ascii c) - 48.

(** The digits of an [int] literal: underscores only between digits. *)
Fixpoint digits (s : string) (acc : Z) (after_digit : bool) : option Z :=
  match s with
  | EmptyString => if after_digit then Some acc else None
  | String c s' =>
      if isdigit c then digits s' (10 * acc + digit_val c) true
      else if Ascii.eqb c "_" && after_digit then digits s' acc false
      else None
  end.

(** [int(s)]: [None] stands for [ValueError]. *)
Definition to_int (s : string) : option Z :=
  match strip s with
  | String "+" r => digits r 0 false
  | String "-" r => Z.opp <$> digits r 0 false
  | t => digits t 0 false
  end.

End Str.

(** ** Python values and exceptions *)

(** What an entity or a handler's return value can be.  [VOther] is any
    object of another type (list, dict, ...), with its type name, its [str()]
    and its truth value; a float comes with its [str()] too. *)
Inductive value : Type :=
  | VNone
  | VBool (b : bool)
  | VInt (n : Z)
  | VFloat (x : float) (repr : string)
  | VStr (s : string)
  | VOther (type_name repr : string) (truth : bool).

Inductive exn : Type :=
  | AttributeError (msg : string)
  | ValueError (msg : string)
  | IndexError (msg : string)
  | OverflowError (msg : string)
  | TypeError (msg : string)
  | OtherError (msg : string).

(** [str(e)] *)
Definition exn_str (e : exn) : string :=
  match e with
  | AttributeError m | ValueError m | IndexError m | OverflowError m
  | TypeError m | OtherError m => m
  end.

Inductive outcome (A : Type) : Type :=
  | Ret (a : A)
  | Raise (e : exn).
Arguments Ret {A} a.
Arguments Raise {A} e.

Definition obind {A B} (x : outcome A) (f : A -> outcome B) : outcome B :=
  match x with
  | Ret a => f a
  | Raise e => Raise e
  end.

Notation "'try!' x <- c1 ; c2" := (obind c1 (fun x => c2))
  (at level 10, x name, c1 at level 100, c2 at level 200).

Definition type_name (v : value) : string :=
  match v with
  | VNone => "NoneType"
  | VBool _ => "bool"
  | VInt _ => "int"
  | VFloat _ _ => "float"
  | VStr _ => "str"
  | VOther t _ _ => t
  end.

(** [bool(v)] *)
Definition truthy (v : value) : bool :=
  match v with
  | VNone => false
  | VBool b => b
  | VInt n => negb (n =? 0)
  | VFloat x _ => negb (PrimFloat.eqb x 0%float)
  | VStr s => Str.truthy s
  | VOther _ _ t => t
  end.

Definition no_attribute (v : value) (attr : string) : exn :=
  AttributeError ("'" +:+ type_name v +:+ "' object has no attribute '" +:+ attr +:+ "'").

(** [v.strip()] and [v.lower()]: only a [str] has the method. *)
Definition value_strip (v : value) : outcome string :=
  match v with
  | VStr s => Ret (Str.strip s)
  | _ => Raise (no_attribute v "strip")
  end.

Definition value_lower (v : value) : outcome string :=
  match v with
  | VStr s => Ret (Str.lower s)
  | _ => Raise (no_attribute v "lower")
  end.

(** [d.get(key, default)] *)
Definition dict_get (d : gmap string value) (key : string) (default : value) : value :=
  match d !! key with
  | Some v => v
  | None => default
  end.

(** ** The library the pipeline runs on *)

(** Python's [re] ([re.match] with [re.IGNORECASE], [re.search]) and
    [hashlib].  A match is the tuple [match.groups()], with [None] for a group
    that took no part in the match. *)
Class Runtime : Type := {
  re_match_ignorecase : string -> string -> option (list (option string));
  re_search : string -> string -> option (list (option string));
  md5_hexdigest : string -> string
}.

(** [str(v)], as an f-string prints it. *)
Definition value_str (v : value) : string :=
  match v with
  | VNone => "None"
  | VBool b => if b then "True" else "False"
  | VInt n => pretty n
  | VFloat _ r => r
  | VStr s => s
  | VOther _ r _ => r
  end.

(** ** Commands  ([nlp_processor.py], [CommandResult]) *)

Record CommandResult : Type := {
  intent : string;
  entities : gmap string value;
  confidence : float;
  requires_confirmation : bool;
  raw_text : string;
  processing_method : string;
  timestamp : Z
}.

(** ** Command validator  ([command_dispatcher.py], [CommandValidator]) *)

Module CommandValidator.

Definition verdict : Type := (bool * option string)%type.

Definition _validate_open_app (command : CommandResult) : outcome verdict :=
  try! app_name <- value_strip (dict_get (entities command) "app_name" (VStr ""));
  if negb (Str.truthy app_name) then Ret (false, Some "Application name required")
  else
    let dangerous_apps := ["regedit"; "cmd"; "powershell"; "terminal"; "taskmgr"] in
    if bool_decide (Str.lower app_name ∈ map Str.lower dangerous_apps)
    then Ret (false, Some ("Cannot open " +:+ app_name +:+ " for security reasons"))
    else Ret (true, None).

Definition _validate_close_app (command : CommandResult) : outcome verdict :=
  try! app_name <- value_strip (dict_get (entities command) "app_name" (VStr ""));
  if negb (Str.truthy app_name) then Ret (false, Some "Application name required")
  else Ret (true, None).

Definition _validate_send_email (command : CommandResult) : outcome verdict :=
  try! recipient <- value_strip (dict_get (entities command) "recipient" (VStr ""));
  try! message <- value_strip (dict_get (entities command) "message" (VStr ""));
  if negb (Str.truthy recipient) then Ret (false, Some "Email recipient required")
  else if negb (Str.truthy message) then Ret (false, Some "Email message required")
  else if negb (Str.contains "@" recipient)
          || negb (Str.contains "." (Str.last_field "@" recipient))
  then Ret (false, Some "Invalid email address")
  else Ret (true, None).

Definition _validate_system_command (command : CommandResult) : outcome verdict :=
  if negb (requires_confirmation command)
  then Ret (false, Some "System commands require confirmation")
  else Ret (true, None).

(** [isinstance(v, (int, float))]; [bool] is a subclass of [int]. *)
Definition is_number (v : value) : bool :=
  match v with
  | VBool _ | VInt _ | VFloat _ _ => true
  | _ => false
  end.

(** [v <= 0] and [v > bound] on a number. *)
Definition num_le0 (v : value) : bool :=
  match v with
  | VBool b => negb b
  | VInt n => n <=? 0
  | VFloat x _ => PrimFloat.leb x 0%float
  | _ => false
  end.

Definition num_gt (v : value) (bound : Z) : bool :=
  match v with
  | VBool b => (if b then 1 else 0) >? bound
  | VInt n => n >? bound
  | VFloat x _ => PrimFloat.ltb (PrimFloat.of_uint63 (Uint63.of_Z bound)) x
  | _ => false
  end.

Definition _validate_timer_command (command : CommandResult) : outcome verdict :=
  let time_value := dict_get (entities command) "time_value" VNone in
  let time_unit := dict_get (entities command) "time_unit" (VStr "") in
  if negb (truthy time_value) || negb (is_number time_value)
  then Ret (false, Some "Invalid time value")
  else if num_le0 time_value then Ret (false, Some "Time must be positive")
  else
    try! unit <- value_lower time_unit;
    if Str.contains "minute" unit then
      if num_gt time_value 1440 then Ret (false, Some "Timer cannot exceed 24 hours")
      else Ret (true, None)
    else
      try! unit' <- value_lower time_unit;
      if Str.contains "hour" unit' then
        if num_gt time_value 24 then Ret (false, Some "Timer cannot exceed 24 hours")
        else Ret (true, None)
      else Ret (true, None).

Definition _validate_search_command (command : CommandResult) : outcome verdict :=
  try! query <- value_strip (dict_get (entities command) "query" (VStr ""));
  if negb (Str.truthy query) then Ret (false, Some "Search query required")
  else if (1000 <? Z.of_nat (String.length query))
  then Ret (false, Some "Search query too long")
  else Ret (true, None).

Definition validate_command (command : CommandResult) : outcome verdict :=
  if PrimFloat.ltb (confidence command) 0.3%float
  then Ret (false, Some "Command confidence too low")
  else if String.eqb (intent command) "unknown"
  then Ret (false, Some "Unknown command intent")
  else if String.eqb (intent command) "open_app" then _validate_open_app command
  else if String.eqb (intent command) "close_app" then _validate_close_app command
  else if String.eqb (intent command) "send_email" then _validate_send_email command
  else if bool_decide (intent command ∈ ["shutdown_system"; "restart_system"])
  then _validate_system_command command
  else if String.eqb (intent command) "set_timer" then _validate_timer_command command
  else if bool_decide (intent command ∈ ["search_web"; "search_youtube"; "search_wikipedia"])
  then _validate_search_command command
  else Ret (true, None).

End CommandValidator.

(** ** Offline resolver  ([nlp_processor.py], [FallbackProcessor]) *)

Module FallbackProcessor.

(** [self.intent_patterns]: a dict literal, iterated in insertion order. *)
Definition intent_patterns : list (string * list string) :=
  [ ("open_app",
      [ "(?:open|launch|start|run)\s+(.+?)(?:\s+(?:app|application|program))?$";
        "(?:start|run)\s+(.+?)$";
        "open\s+(.+?)\s+app$" ]);
    ("close_app",
      [ "(?:close|quit|exit|stop)\s+(.+?)(?:\s+(?:app|application|program))?$";
        "(?:close|quit)\s+(.+?)$";
        "shutdown\s+(.+?)\s+app$" ]);
    ("get_weather",
      [ "(?:what'?s?|tell me|show me)\s+(?:the\s+)?weather(?:\s+(?:in|for|at)\s+(.+))?$";
        "weather(?:\s+(?:in|for|at)\s+(.+))?$";
        "(?:how'?s?|what'?s? the) weather(?:\s+(?:in|for|at)\s+(.+))?$" ]);
    ("search_web",
      [ "(?:search|google|look up)\s+(.+?)\s*(?:on\s+google)?$";
        "(?:find|find out|tell me about)\s+(.+?)$";
        "(?:what\s+is|who\s+is|where\s+is)\s+(.+?)$" ]);
    ("search_youtube",
      [ "(?:search|play|find)\s+(.+?)\s+on\s+youtube$";
        "youtube\s+(.+?)$";
        "(?:play|watch)\s+(.+?)\s+on\s+youtube$" ]);
    ("search_wikipedia",
      [ "(?:search|look up)\s+(.+?)\s+on\s+wikipedia$";
        "wikipedia\s+(.+?)$";
        "tell me about\s+(.+?)$" ]);
    ("set_reminder",
      [ "(?:remind|reminder)\s+(?:me\s+)?(?:to\s+)?(.+?)(?:\s+in\s+(\d+)\s+(minute|minutes|hour|hours))?$";
        "(?:set\s+)?reminder\s+(?:to\s+)?(.+?)$";
        "remind\s+me\s+(.+?)$" ]);
    ("set_timer",
      [ "(?:set\s+)?(?:a\s+)?timer\s+for\s+(\d+)\s+(minute|minutes|hour|hours)$";
        "timer\s+(\d+)\s+(minute|minutes|hour|hours)$";
        "(?:count|countdown)\s+(.+?)$" ]);
    ("play_music",
      [ "(?:play|start)\s+(.+?)(?:\s+(?:music|song|track))?$";
        "(?:listen to|hear)\s+(.+?)$";
        "music\s+(.+?)$" ]);
    ("send_email",
      [ "(?:send|write)\s+(?:an\s+)?email\s+(?:to\s+)?(.+?)(?:\s+saying\s+(.+?))?$";
        "email\s+(.+?)(?:\s+saying\s+(.+?))?$";
        "(?:message|contact)\s+(.+?)$" ]);
    ("get_time",
      [ "(?:what\s+)?time\s+is\s+it$";
        "(?:current\s+)?time$";
        "(?:tell me the time|what time)$" ]);
    ("get_date",
      [ "(?:what\s+)?(?:day|date)\s+is\s+it$";
        "(?:current\s+)?(?:day|date)$";
        "(?:tell me the date|what date)$" ]);
    ("shutdown_system",
      [ "(?:shutdown|turn off|power off)\s+(?:the\s+)?(?:computer|pc|system)$";
        "(?:shut\s+down|power\s+down)$" ]);
    ("restart_system",
      [ "(?:restart|reboot|reboot)\s+(?:the\s+)?(?:computer|pc|system)$";
        "(?:restart\s+computer|reboot\s+system)$" ]);
    ("get_news",
      [ "(?:what'?s?\s+(?:the\s+)?latest\s+)?news(?:\s+(?:about|on)\s+(.+?))?$";
        "(?:tell|show)\s+(?:me\s+)?(?:the\s+)?news(?:\s+(?:about|on)\s+(.+?))?$";
        "(?:news|headlines)(?:\s+(?:about|on)\s+(.+?))?$" ]) ].

Definition sensitive_patterns : list string :=
  [ "\b(password|secret|token|key|credential)\b";
    "\b(delete|remove|uninstall)\s+.+\b";
    "\b(format|erase|wipe)\s+.+\b";
    "\b(administrator|root|sudo)\b" ].

Definition groups_t : Type := list (option string).

(** [groups[i]] *)
Definition group (groups : groups_t) (i : nat) : outcome (option string) :=
  match groups !! i with
  | Some g => Ret g
  | None => Raise (IndexError "tuple index out of range")
  end.

(** [g.strip()] on a group, which is a [str] or [None]. *)
Definition group_strip (g : option string) : outcome string :=
  match g with
  | Some s => Ret (Str.strip s)
  | None => Raise (no_attribute VNone "strip")
  end.

(** [int(g)] on a group. *)
Definition group_int (g : option string) : outcome Z :=
  match g with
  | Some s =>
      match Str.to_int s with
      | Some n => Ret n
      | None => Raise (ValueError ("invalid literal for int() with base 10: '" +:+ s +:+ "'"))
      end
  | None =>
      Raise (TypeError "int() argument must be a string, a bytes-like object or a real number, not 'NoneType'")
  end.

(** A group as a dict value, and its truth value. *)
Definition group_value (g : option string) : value :=
  match g with Some s => VStr s | None => VNone end.

Definition group_truthy (g : option string) : bool := truthy (group_value g).

(** The body of [if match.groups(): ...]: the entities of a match. *)
Definition extract_entities (intent : string) (groups : groups_t)
  : outcome (gmap string value) :=
  match groups with
  | [] => Ret ∅
  | _ =>
    if String.eqb intent "open_app" || String.eqb intent "close_app" then
      try! g0 <- group groups 0;
      try! name <- group_strip g0;
      Ret {[ "app_name" := VStr name ]}
    else if bool_decide (intent ∈ ["get_weather"; "search_web"; "search_youtube"; "search_wikipedia"]) then
      try! g0 <- group groups 0;
      if group_truthy g0 then
        try! q <- group_strip g0; Ret {[ "query" := VStr q ]}
      else Ret {[ "query" := VNone ]}
    else if String.eqb intent "set_reminder" then
      try! g0 <- group groups 0;
      try! message <- group_strip g0;
      let entities : gmap string value := {[ "message" := VStr message ]} in
      if (2 <? Z.of_nat (length groups)) && group_truthy (default None (groups !! 1%nat)) then
        try! g1 <- group groups 1;
        try! n <- group_int g1;
        try! g2 <- group groups 2;
        Ret (<[ "time_unit" := group_value g2 ]> (<[ "time_value" := VInt n ]> entities))
      else Ret entities
    else if String.eqb intent "set_timer" then
      try! g0 <- group groups 0;
      try! n <- group_int g0;
      try! g1 <- group groups 1;
      Ret (<[ "time_unit" := group_value g1 ]> {[ "time_value" := VInt n ]})
    else if String.eqb intent "play_music" then
      try! g0 <- group groups 0;
      try! song <- group_strip g0;
      Ret {[ "song_or_playlist" := VStr song ]}
    else if String.eqb intent "send_email" then
      try! g0 <- group groups 0;
      try! recipient <- group_strip g0;
      let entities : gmap string value := {[ "recipient" := VStr recipient ]} in
      if (1 <? Z.of_nat (length groups)) && group_truthy (default None (groups !! 1%nat)) then
        try! g1 <- group groups 1;
        try! message <- group_strip g1;
        Ret (<[ "message" := VStr message ]> entities)
      else Ret entities
    else Ret ∅
  end.

Section WithRuntime.
Context `{Runtime}.

(** The inner loop: the first pattern of one intent that matches. *)
Fixpoint match_patterns (intent : string) (patterns : list string) (text : string)
  : option (string * groups_t) :=
  match patterns with
  | [] => None
  | pattern :: rest =>
      match re_match_ignorecase pattern text with
      | Some groups => Some (intent, groups)
      | None => match_patterns intent rest text
      end
  end.

(** The outer loop over [self.intent_patterns.items()]. *)
Fixpoint match_intents (table : list (string * list string)) (text : string)
  : option (string * groups_t) :=
  match table with
  | [] => None
  | (intent, patterns) :: rest =>
      match match_patterns intent patterns text with
      | Some m => Some m
      | None => match_intents rest text
      end
  end.

(** [any(re.search(pattern, text) for pattern in self.sensitive_patterns)] *)
Definition is_sensitive (text : string) : bool :=
  existsb (fun pattern => bool_decide (is_Some (re_search pattern text))) sensitive_patterns.

Definition process_command (now : Z) (text : string) : outcome CommandResult :=
  let text := Str.lower (Str.strip text) in
  let is_sensitive := is_sensitive text in
  match match_intents intent_patterns text with
  | Some (intent, groups) =>
      try! entities <- extract_entities intent groups;
      Ret {| intent := intent;
             entities := entities;
             confidence := 0.7%float;
             requires_confirmation :=
               is_sensitive
               || bool_decide (intent ∈ ["shutdown_system"; "restart_system"; "send_email"]);
             raw_text := text;
             processing_method := "fallback";
             timestamp := now |}
  | None =>
      Ret {| intent := "general_query";
             entities := {[ "query" := VStr text ]};
             confidence := 0.3%float;
             requires_confirmation := false;
             raw_text := text;
             processing_method := "fallback";
             timestamp := now |}
  end.

End WithRuntime.

End FallbackProcessor.

(** ** Resolver with the remote service and its cache  ([NLPProcessor]) *)

(** The fields of [AIConfig] the resolver branches on. *)
Record AIConfig : Type := {
  use_openai : bool;
  cache_responses : bool;
  cache_ttl_hours : Z
}.

Record CachedResponse : Type := {
  key : string;
  response : CommandResult;
  created_at : Z;
  ttl_hours : Z
}.

(** The parsed reply of the completion service: the JSON object's four
    optional fields, [confidence] after [float(...)].  Replies of any other
    shape fail inside the [try] and are the [None] of [completion]. *)
Record Reply : Type := {
  reply_intent : option string;
  reply_entities : option (gmap string value);
  reply_confidence : option float;
  reply_requires_confirmation : option value
}.

(** The remote completion service as the resolver sees it: for the text sent,
    a parsed reply, or [None] when the call, the JSON parsing or a conversion
    raises. *)
Definition completion : Type := string -> option Reply.

Record NLPProcessor : Type := {
  config : AIConfig;
  openai_client : bool;
  cache : gmap string CachedResponse;
  requests_made : Z;
  cache_hits : Z;
  (** texts sent to the completion service, oldest first *)
  remote_calls : list string
}.

Definition set_cache (f : gmap string CachedResponse -> gmap string CachedResponse)
    (s : NLPProcessor) : NLPProcessor :=
  {| config := config s; openai_client := openai_client s; cache := f (cache s);
     requests_made := requests_made s; cache_hits := cache_hits s;
     remote_calls := remote_calls s |}.

Definition incr_cache_hits (s : NLPProcessor) : NLPProcessor :=
  {| config := config s; openai_client := openai_client s; cache := cache s;
     requests_made := requests_made s; cache_hits := cache_hits s + 1;
     remote_calls := remote_calls s |}.

Definition incr_requests_made (s : NLPProcessor) : NLPProcessor :=
  {| config := config s; openai_client := openai_client s; cache := cache s;
     requests_made := requests_made s + 1; cache_hits := cache_hits s;
     remote_calls := remote_calls s |}.

Definition log_remote_call (text : string) (s : NLPProcessor) : NLPProcessor :=
  {| config := config s; openai_client := openai_client s; cache := cache s;
     requests_made := requests_made s; cache_hits := cache_hits s;
     remote_calls := remote_calls s ++ [text] |}.

(** [timedelta(hours=h)] in microseconds; the constructor raises when the
    number of days leaves [-999999999, 999999999]. *)
Definition timedelta_hours (h : Z) : outcome Z :=
  let us := h * 3600000000 in
  let days := us `div` 86400000000 in
  if (-999999999 <=? days) && (days <=? 999999999) then Ret us
  else Raise (OverflowError ("days=" +:+ pretty days +:+ "; must have magnitude <= 999999999")).

Module NLPProcessor.
Section WithRuntime.
Context `{Runtime}.

Definition _get_cache_key (text : string) : string :=
  md5_hexdigest (Str.lower text).

Definition _get_cached_response (now : Z) (text : string) (s : NLPProcessor)
  : outcome (option CommandResult) * NLPProcessor :=
  if negb (cache_responses (config s)) then (Ret None, s)
  else
    let cache_key := _get_cache_key text in
    match cache s !! cache_key with
    | Some cached =>
        let age := now - created_at cached in
        match timedelta_hours (ttl_hours cached) with
        | Raise e => (Raise e, s)
        | Ret ttl =>
            if age <? ttl then (Ret (Some (response cached)), s)
            else (Ret None, set_cache (delete cache_key) s)
        end
    | None => (Ret None, s)
    end.

Definition _cache_response (now : Z) (text : string) (response : CommandResult)
    (s : NLPProcessor) : NLPProcessor :=
  if negb (cache_responses (config s)) then s
  else
    let cache_key := _get_cache_key text in
    set_cache (insert cache_key
                 {| key := cache_key; response := response; created_at := now;
                    ttl_hours := cache_ttl_hours (config s) |}) s.

(** The [try] block of [_process_with_openai]: the remote call, the
    construction of the result and its caching. *)
Definition call_remote (remote : completion) (now : Z) (text : string)
    (s : NLPProcessor) : outcome (option CommandResult) * NLPProcessor :=
  let s := log_remote_call text s in
  match remote text with
  | None => (Ret None, s)
  | Some parsed =>
      let result :=
        {| intent := default "unknown" (reply_intent parsed);
           entities := default ∅ (reply_entities parsed);
           confidence := default 0.5%float (reply_confidence parsed);
           requires_confirmation :=
             truthy (default (VBool false) (reply_requires_confirmation parsed));
           raw_text := text;
           processing_method := "openai";
           timestamp := now |} in
      let s := if cache_responses (config s) then _cache_response now text result s else s in
      (Ret (Some result), s)
  end.

Definition _process_with_openai (remote : completion) (now : Z) (text : string)
    (s : NLPProcessor) : outcome (option CommandResult) * NLPProcessor :=
  if cache_responses (config s) then
    match _get_cached_response now text s with
    | (Raise e, s) => (Raise e, s)
    | (Ret (Some cached_result), s) => (Ret (Some cached_result), incr_cache_hits s)
    | (Ret None, s) => call_remote remote now text s
    end
  else call_remote remote now text s.

Definition error_command (now : Z) (text : string) : CommandResult :=
  {| intent := "error";
     entities := {[ "error" := VStr "Empty command" ]};
     confidence := 0%float;
     requires_confirmation := false;
     raw_text := text;
     processing_method := "error";
     timestamp := now |}.

Definition process_command (remote : completion) (now : Z) (text : string)
    (s : NLPProcessor) : outcome CommandResult * NLPProcessor :=
  if negb (Str.truthy text) || negb (Str.truthy (Str.strip text))
  then (Ret (error_command now text), s)
  else
    let text := Str.strip text in
    let fallback (s : NLPProcessor) := (FallbackProcessor.process_command now text, s) in
    if use_openai (config s) && openai_client s then
      match _process_with_openai remote now text s with
      | (Ret (Some result), s) => (Ret result, incr_requests_made s)
      | (Ret None, s) => fallback s
      | (Raise e, s) => fallback s
      end
    else fallback s.

(** [check_sensitive_command]: the method's own list of patterns, searched
    in the lowered text. *)
Definition check_sensitive_command (text : string) : bool :=
  let sensitive_patterns :=
    [ "\b(password|secret|token|key|credential)\b";
      "\b(delete|remove|uninstall)\s+.+\b";
      "\b(format|erase|wipe)\s+.+\b";
      "\b(administrator|root|sudo)\b" ] in
  let text_lower := Str.lower text in
  existsb (fun pattern => bool_decide (is_Some (re_search pattern text_lower)))
          sensitive_patterns.

End WithRuntime.

(** An entry whose age is below its TTL. *)
Definition fresh (now : Z) (cached : CachedResponse) : bool :=
  match timedelta_hours (ttl_hours cached) with
  | Ret ttl => now - created_at cached <? ttl
  | Raise _ => false
  end.

(** [clear_cache]: the cache in memory (the file is removed too). *)
Definition clear_cache (s : NLPProcessor) : NLPProcessor := set_cache (fun _ => ∅) s.

(** *** The cache file *)

(** A command and an entry as objects of the JSON file.  A member is [None]
    when the object lacks it, a date also when its text is no ISO date;
    a member that is present has the type [_save_cache] writes. *)
Record StoredCommand : Type := {
  stored_intent : option string;
  stored_entities : option (gmap string value);
  stored_confidence : option float;
  stored_requires_confirmation : option bool;
  stored_raw_text : option string;
  stored_processing_method : option string;
  stored_timestamp : option Z
}.

Record StoredEntry : Type := {
  stored_response : option StoredCommand;
  stored_created_at : option Z;
  stored_ttl_hours : option Z
}.

(** [CommandResult(intent=response_data["intent"], ...)]: [None] when a
    subscript or [fromisoformat] raises. *)
Definition load_command (data : StoredCommand) : option CommandResult :=
  i ← stored_intent data;
  e ← stored_entities data;
  c ← stored_confidence data;
  r ← stored_requires_confirmation data;
  t ← stored_raw_text data;
  m ← stored_processing_method data;
  ts ← stored_timestamp data;
  Some {| intent := i; entities := e; confidence := c; requires_confirmation := r;
          raw_text := t; processing_method := m; timestamp := ts |}.

(** The body of the loop of [_load_cache] for one member of the file:
    [None] when it raises.  An entry whose age has reached its TTL is passed
    over, its response unread. *)
Definition load_entry (now : Z) (key : string) (item : StoredEntry)
    (cache : gmap string CachedResponse) : option (gmap string CachedResponse) :=
  created ← stored_created_at item;
  let age := now - created in
  hours ← stored_ttl_hours item;
  match timedelta_hours hours with
  | Raise _ => None
  | Ret ttl =>
      if age <? ttl then
        response_data ← stored_response item;
        response ← load_command response_data;
        Some (<[ key := {| key := key; response := response; created_at := created;
                           ttl_hours := hours |} ]> cache)
      else Some cache
  end.

(** The loop over [data.items()], inside the [try] of [_load_cache]: an
    exception ends the loop, and what was loaded so far stays. *)
Fixpoint load_entries (now : Z) (items : list (string * StoredEntry))
    (cache : gmap string CachedResponse) : gmap string CachedResponse :=
  match items with
  | [] => cache
  | (key, item) :: rest =>
      match load_entry now key item cache with
      | Some cache' => load_entries now rest cache'
      | None => cache
      end
  end.

(** [_load_cache]; [file] is the object read from the cache file, its members
    in the order of the file, or [None] when there is no file or it cannot be
    read as JSON. *)
Definition _load_cache (now : Z) (file : option (list (string * StoredEntry)))
    (s : NLPProcessor) : NLPProcessor :=
  match file with
  | Some data => set_cache (load_entries now data) s
  | None => s
  end.

Definition store_command (c : CommandResult) : StoredCommand :=
  {| stored_intent := Some (intent c);
     stored_entities := Some (entities c);
     stored_confidence := Some (confidence c);
     stored_requires_confirmation := Some (requires_confirmation c);
     stored_raw_text := Some (raw_text c);
     stored_processing_method := Some (processing_method c);
     stored_timestamp := Some (timestamp c) |}.

Definition store_entry (cached : CachedResponse) : StoredEntry :=
  {| stored_response := Some (store_command (response cached));
     stored_created_at := Some (created_at cached);
     stored_ttl_hours := Some (ttl_hours cached) |}.

(** [_save_cache]: the object written to the cache file, one member for each
    entry of the cache. *)
Definition _save_cache (s : NLPProcessor) : list (string * StoredEntry) :=
  map (fun entry => (entry.1, store_entry entry.2)) (map_to_list (cache s)).

End NLPProcessor.

(** ** Command dispatcher  ([command_dispatcher.py]) *)

Record ExecutionResult : Type := {
  success : bool;
  message : string;
  data : option (gmap string value);
  error : option string;
  execution_time : Z;
  result_timestamp : Z
}.

Record CommandHistory : Type := {
  command : CommandResult;
  result : ExecutionResult;
  entry_timestamp : Z
}.

(** What a handler hands back: an [ExecutionResult] or any other object. *)
Inductive handler_return : Type :=
  | AsResult (r : ExecutionResult)
  | AsValue (v : value).

(** How the call of a handler in the worker thread ends, seen from
    [future.result(timeout=...)]. *)
Inductive handler_run : Type :=
  | Returns (r : handler_return)   (* finishes within the deadline *)
  | Raises (e : exn)               (* raises within the deadline *)
  | Late                           (* still running at the deadline, ends later *)
  | Hangs.                         (* never ends *)

Definition Handler : Type := CommandResult -> handler_run.

Record SystemControl : Type := {
  open_application : Handler;
  close_application : Handler;
  set_volume : Handler;
  shutdown_system : Handler;
  restart_system : Handler;
  get_system_info : Handler
}.

Record WebAutomation : Type := {
  search_google : Handler;
  search_youtube : Handler
}.

Record InformationProvider : Type := {
  get_weather : Handler;
  get_news : Handler;
  get_wikipedia_summary : Handler;
  get_current_time : Handler;
  get_current_date : Handler;
  answer_general_question : Handler
}.

Record CommunicationHandler : Type := { send_email : Handler }.

Record EntertainmentController : Type := {
  play_music : Handler;
  pause_resume_music : Handler;
  next_track : Handler;
  previous_track : Handler
}.

Record PersonalAssistant : Type := {
  set_reminder : Handler;
  set_timer : Handler
}.

Record CommandDispatcher : Type := {
  system_control : option SystemControl;
  web_automation : option WebAutomation;
  information_provider : option InformationProvider;
  communication_handler : option CommunicationHandler;
  entertainment_controller : option EntertainmentController;
  personal_assistant : option PersonalAssistant;
  command_history : list CommandHistory;
  max_history_size : Z;
  commands_executed : Z;
  commands_failed : Z;
  last_command_time : option Z;
  (** [history_lock], a [threading.Lock]: [true] while it is held *)
  history_lock : bool;
  default_timeout : Z;
  (** the commands handed to a handler, oldest first *)
  invocations : list CommandResult
}.

(** [l[start:]] *)
Definition slice_from {A} (start : Z) (l : list A) : list A :=
  if start <? 0 then drop (Z.to_nat (Z.of_nat (length l) + start)) l
  else drop (Z.to_nat start) l.

Module CommandDispatcher.

(** The dispatcher after [__init__], with its components as [initialize]
    or the caller set them. *)
Definition new (sc : option SystemControl) (wa : option WebAutomation)
    (ip : option InformationProvider) (ch : option CommunicationHandler)
    (ec : option EntertainmentController) (pa : option PersonalAssistant)
    : CommandDispatcher :=
  {| system_control := sc; web_automation := wa; information_provider := ip;
     communication_handler := ch; entertainment_controller := ec;
     personal_assistant := pa;
     command_history := []; max_history_size := 100;
     commands_executed := 0; commands_failed := 0; last_command_time := None;
     history_lock := false; default_timeout := 30; invocations := [] |}.

(** *** State, exceptions and the lock *)

Inductive run (A : Type) : Type :=
  | Returned (a : A) (d : CommandDispatcher)
  | Raised (e : exn) (d : CommandDispatcher)
  | Blocked (d : CommandDispatcher).   (* the thread waits for ever *)
Arguments Returned {A} a d.
Arguments Raised {A} e d.
Arguments Blocked {A} d.

Definition M (A : Type) : Type := CommandDispatcher -> run A.

Definition ret {A} (a : A) : M A := fun d => Returned a d.

Definition bind {A B} (m : M A) (f : A -> M B) : M B := fun d =>
  match m d with
  | Returned a d' => f a d'
  | Raised e d' => Raised e d'
  | Blocked d' => Blocked d'
  end.

Definition lift {A} (o : outcome A) : M A := fun d =>
  match o with
  | Ret a => Returned a d
  | Raise e => Raised e d
  end.

Definition get : M CommandDispatcher := fun d => Returned d d.

Definition modify (f : CommandDispatcher -> CommandDispatcher) : M unit :=
  fun d => Returned tt (f d).

(** [try: body except Exception as e: handler e] *)
Definition try_except {A} (body : M A) (handler : exn -> M A) : M A := fun d =>
  match body d with
  | Returned a d' => Returned a d'
  | Raised e d' => handler e d'
  | Blocked d' => Blocked d'
  end.

Definition block {A} : M A := fun d => Blocked d.

Notation "'do!' x <- c1 ; c2" := (bind c1 (fun x => c2))
  (at level 10, x name, c1 at level 100, c2 at level 200).

Definition update (f : list CommandHistory -> list CommandHistory)
    (lock : bool -> bool) (inv : list CommandResult -> list CommandResult)
    (d : CommandDispatcher) : CommandDispatcher :=
  {| system_control := system_control d; web_automation := web_automation d;
     information_provider := information_provider d;
     communication_handler := communication_handler d;
     entertainment_controller := entertainment_controller d;
     personal_assistant := personal_assistant d;
     command_history := f (command_history d);
     max_history_size := max_history_size d;
     commands_executed := commands_executed d;
     commands_failed := commands_failed d;
     last_command_time := last_command_time d;
     history_lock := lock (history_lock d);
     default_timeout := default_timeout d;
     invocations := inv (invocations d) |}.

Definition set_history (f : list CommandHistory -> list CommandHistory) :=
  update f id id.
Definition set_lock (b : bool) := update id (fun _ => b) id.
Definition log_invocation (c : CommandResult) := update id id (fun l => l ++ [c]).

Definition set_counters (executed failed : Z -> Z) (last : option Z -> option Z)
    (d : CommandDispatcher) : CommandDispatcher :=
  {| system_control := system_control d; web_automation := web_automation d;
     information_provider := information_provider d;
     communication_handler := communication_handler d;
     entertainment_controller := entertainment_controller d;
     personal_assistant := personal_assistant d;
     command_history := command_history d;
     max_history_size := max_history_size d;
     commands_executed := executed (commands_executed d);
     commands_failed := failed (commands_failed d);
     last_command_time := last (last_command_time d);
     history_lock := history_lock d;
     default_timeout := default_timeout d;
     invocations := invocations d |}.

(** [with self.history_lock: body].  The lock is not reentrant: taking it
    while it is held waits until it is released, and nothing in the
    dispatcher releases a lock it does not hold. *)
Definition with_history_lock {A} (body : M A) : M A := fun d =>
  if history_lock d then Blocked d
  else
    match body (set_lock true d) with
    | Returned a d' => Returned a (set_lock false d')
    | Raised e d' => Raised e (set_lock false d')
    | Blocked d' => Blocked d'
    end.

(** *** The dispatcher's methods *)

(** [get_command_handlers]: the dict literal, a handler being [None] when its
    component is missing. *)
Definition get_command_handlers (d : CommandDispatcher) : gmap string (option Handler) :=
  list_to_map
    [ ("open_app", open_application <$> system_control d);
      ("close_app", close_application <$> system_control d);
      ("get_weather", get_weather <$> information_provider d);
      ("get_news", get_news <$> information_provider d);
      ("search_web", search_google <$> web_automation d);
      ("search_youtube", search_youtube <$> web_automation d);
      ("search_wikipedia", get_wikipedia_summary <$> information_provider d);
      ("send_email", send_email <$> communication_handler d);
      ("play_music", play_music <$> entertainment_controller d);
      ("pause_resume_music", pause_resume_music <$> entertainment_controller d);
      ("next_track", next_track <$> entertainment_controller d);
      ("previous_track", previous_track <$> entertainment_controller d);
      ("set_reminder", set_reminder <$> personal_assistant d);
      ("set_timer", set_timer <$> personal_assistant d);
      ("get_time", get_current_time <$> information_provider d);
      ("get_date", get_current_date <$> information_provider d);
      ("shutdown_system", shutdown_system <$> system_control d);
      ("restart_system", restart_system <$> system_control d);
      ("get_system_info", get_system_info <$> system_control d);
      ("adjust_volume", set_volume <$> system_control d);
      ("general_query", answer_general_question <$> information_provider d) ].

(** [handlers.get(command.intent)], [None] also for a missing key. *)
Definition lookup_handler (d : CommandDispatcher) (intent : string) : option Handler :=
  mjoin (get_command_handlers d !! intent).

Section WithRuntime.
Context `{Runtime}.

(** [_execute_with_timeout].  The handler runs in the worker of a one-thread
    pool; leaving the [with] block joins that worker, so the method returns
    only once the handler has ended. *)
Definition _execute_with_timeout (now : Z) (handler : Handler) (command : CommandResult)
    (timeout : Z) : M ExecutionResult :=
  do! submitted <- modify (log_invocation command);
  match handler command with
  | Returns (AsResult r) => ret r
  | Returns (AsValue v) =>
      ret {| success := true;
             message := value_str v;
             data := if truthy v then Some {[ "result" := v ]} else None;
             error := None;
             execution_time := 0;
             result_timestamp := now |}
  | Late =>
      ret {| success := false;
             message := "Command execution timed out after " +:+ pretty timeout +:+ " seconds";
             data := None;
             error := Some "Command timeout";
             execution_time := 0;
             result_timestamp := now |}
  | Raises e =>
      ret {| success := false;
             message := "Handler execution error: " +:+ exn_str e;
             data := None;
             error := Some (exn_str e);
             execution_time := 0;
             result_timestamp := now |}
  | Hangs => block
  end.

Definition _record_command (now : Z) (command : CommandResult) (result : ExecutionResult)
    : M unit :=
  with_history_lock
    (do! d <- get;
     let history_entry := {| command := command; result := result; entry_timestamp := now |} in
     let history := command_history d ++ [history_entry] in
     modify (set_history (fun _ =>
       if max_history_size d <? Z.of_nat (length history)
       then slice_from (- max_history_size d) history
       else history))).

(** [str(error_message)] in an f-string, for an [Optional[str]]. *)
Definition optional_str (o : option string) : string := default "None" o.

(** [dispatch_command]; [start_time] is the clock at entry, [now] the clock
    when the result is built. *)
Definition dispatch_command (start_time now : Z) (command : CommandResult)
    : M ExecutionResult :=
  try_except
    (do! verdict <- lift (CommandValidator.validate_command command);
     let '(is_valid, error_message) := verdict in
     if negb is_valid then
       ret {| success := false;
              message := "Command validation failed: " +:+ optional_str error_message;
              data := None;
              error := error_message;
              execution_time := now - start_time;
              result_timestamp := now |}
     else
       do! d <- get;
       match lookup_handler d (intent command) with
       | None =>
           ret {| success := false;
                  message := "No handler available for command: " +:+ intent command;
                  data := None;
                  error := Some ("Unknown command intent: " +:+ intent command);
                  execution_time := now - start_time;
                  result_timestamp := now |}
       | Some handler =>
           if requires_confirmation command then
             ret {| success := false;
                    message := "Command '" +:+ intent command
                               +:+ "' requires confirmation. Please confirm to proceed.";
                    data := Some {[ "requires_confirmation" := VBool true ]};
                    error := Some "Confirmation required";
                    execution_time := now - start_time;
                    result_timestamp := now |}
           else
             do! result <- _execute_with_timeout now handler command (default_timeout d);
             do! recorded <- _record_command now command result;
             do! counted <- modify (set_counters (Z.succ) id (fun _ => Some now));
             ret result
       end)
    (fun e =>
       do! counted <- modify (set_counters id (Z.succ) id);
       ret {| success := false;
              message := "Error executing command: " +:+ exn_str e;
              data := None;
              error := Some (exn_str e);
              execution_time := now - start_time;
              result_timestamp := now |}).

Definition _create_undo_command (now : Z) (original_command : CommandResult)
    : option CommandResult :=
  if String.eqb (intent original_command) "open_app" then
    Some {| intent := "close_app";
            entities := entities original_command;
            confidence := confidence original_command;
            requires_confirmation := false;
            raw_text := "Close " +:+ value_str (dict_get (entities original_command) "app_name" (VStr ""));
            processing_method := processing_method original_command;
            timestamp := now |}
  else if String.eqb (intent original_command) "close_app" then
    Some {| intent := "open_app";
            entities := entities original_command;
            confidence := confidence original_command;
            requires_confirmation := false;
            raw_text := "Open " +:+ value_str (dict_get (entities original_command) "app_name" (VStr ""));
            processing_method := processing_method original_command;
            timestamp := now |}
  else if String.eqb (intent original_command) "play_music" then
    Some {| intent := "pause_resume_music";
            entities := ∅;
            confidence := confidence original_command;
            requires_confirmation := false;
            raw_text := "Pause music";
            processing_method := processing_method original_command;
            timestamp := now |}
  else None.

Definition plain_failure (now : Z) (msg : string) : ExecutionResult :=
  {| success := false; message := msg; data := None; error := None;
     execution_time := 0; result_timestamp := now |}.

(** The [for entry in reversed(self.command_history)] loop of
    [undo_last_command]; [entries] is the history, most recent first. *)
Fixpoint undo_scan (start_time now : Z) (entries : list CommandHistory)
    : M ExecutionResult :=
  match entries with
  | [] => ret (plain_failure now "No successful commands to undo")
  | entry :: older =>
      if success (result entry) then
        let cannot_undo :=
          ret (plain_failure now ("Cannot undo command: " +:+ intent (command entry))) in
        if bool_decide (intent (command entry) ∈ ["open_app"; "close_app"; "play_music"]) then
          match _create_undo_command now (command entry) with
          | Some undo_command => dispatch_command start_time now undo_command
          | None => cannot_undo
          end
        else cannot_undo
      else undo_scan start_time now older
  end.

Definition undo_last_command (start_time now : Z) : M ExecutionResult :=
  with_history_lock
    (do! d <- get;
     match command_history d with
     | [] => ret (plain_failure now "No commands to undo")
     | _ => undo_scan start_time now (reverse (command_history d))
     end).

End WithRuntime.

(** An entry of the history whose dispatch did not succeed. *)
Definition failed (entry : CommandHistory) : Prop := success (result entry) = false.

(** [get_command_history(limit)]: [self.command_history[-limit:] if limit
    else self.command_history.copy()], under the lock. *)
Definition get_command_history (limit : Z) : M (list CommandHistory) :=
  with_history_lock
    (do! d <- get;
     ret (if negb (limit =? 0) then slice_from (- limit) (command_history d)
          else command_history d)).

(** [clear_history] *)
Definition clear_history : M unit :=
  with_history_lock (modify (set_history (fun _ => []))).

(** The keys of the dict that [get_command_handlers] builds. *)
Definition registered_intents : list string :=
  [ "open_app"; "close_app"; "get_weather"; "get_news"; "search_web"; "search_youtube";
    "search_wikipedia"; "send_email"; "play_music"; "pause_resume_music"; "next_track";
    "previous_track"; "set_reminder"; "set_timer"; "get_time"; "get_date";
    "shutdown_system"; "restart_system"; "get_system_info"; "adjust_volume";
    "general_query" ].

End CommandDispatcher.

(** ** Producers of the event loop  ([event_loop.py]) *)

(** An item of the shared queue: the dataclass [CommandQueue], whose inner
    one-slot queue holds the recognised text. *)
Record CommandQueue : Type := {
  queued_text : string;
  queued_at : Z;
  source : string
}.

(** The part of [EventLoop] the producers read and write.  [spoken] lists
    what was passed to [speech_engine.speak], oldest first. *)
Record EventLoop : Type := {
  wake_word_enabled : bool;
  wake_word : string;
  command_queue : list CommandQueue;
  processing_command : bool;
  hotkey_active : bool;
  spoken : list string
}.

Module EventLoop.

(** [queue.Queue(maxsize=100)] *)
Definition maxsize : Z := 100.

(** One second, the [timeout=1] of both [put] calls, in microseconds. *)
Definition put_timeout : Z := 1000000.

(** The result of [Queue.put(item, timeout=t)], with the time the caller
    spent waiting inside it. *)
Inductive put_result : Type :=
  | Put (q : list CommandQueue) (waited : Z)
  | Full (waited : Z).

(** [Queue.put(item, block=True, timeout=t)] of the standard library: with a
    free slot the item is appended at once; on a full queue the caller waits
    until a consumer's [get] frees a slot or [t] has passed, and then
    [queue.Full] is raised.  [freed] is the delay after which the consumer
    takes the head item, if it does so while the producer waits. *)
Definition queue_put (q : list CommandQueue) (item : CommandQueue) (timeout : Z)
    (freed : option Z) : put_result :=
  if Z.of_nat (length q) <? maxsize then Put (q ++ [item]) 0
  else
    match freed with
    | Some delay =>
        if delay <=? timeout then Put (tail q ++ [item]) (Z.max 0 delay)
        else Full timeout
    | None => Full timeout
    end.

Definition set_queue (q : list CommandQueue) (s : EventLoop) : EventLoop :=
  {| wake_word_enabled := wake_word_enabled s; wake_word := wake_word s;
     command_queue := q; processing_command := processing_command s;
     hotkey_active := hotkey_active s; spoken := spoken s |}.

Definition speak (text : string) (s : EventLoop) : EventLoop :=
  {| wake_word_enabled := wake_word_enabled s; wake_word := wake_word s;
     command_queue := command_queue s; processing_command := processing_command s;
     hotkey_active := hotkey_active s; spoken := spoken s ++ [text] |}.

Definition set_hotkey_active (b : bool) (s : EventLoop) : EventLoop :=
  {| wake_word_enabled := wake_word_enabled s; wake_word := wake_word s;
     command_queue := command_queue s; processing_command := processing_command s;
     hotkey_active := b; spoken := spoken s |}.

(** What a producer says when the queue is full. *)
Definition busy_feedback : string := "I'm busy right now, please try again".

(** The shared tail of both producers:
    [try: self.command_queue.put(command_queue, timeout=1)
     except queue.Full: ... self.speech_engine.speak(...)].
    Returns the new state and the time spent waiting in [put]. *)
Definition enqueue (item : CommandQueue) (freed : option Z) (s : EventLoop)
    : EventLoop * Z :=
  match queue_put (command_queue s) item put_timeout freed with
  | Put q waited => (set_queue q s, waited)
  | Full waited => (speak busy_feedback s, waited)
  end.

(** No slot of the queue is freed before a [put] gives up. *)
Definition none_freed_in_time (freed : option Z) : Prop :=
  match freed with
  | Some delay => put_timeout < delay
  | None => True
  end.

(** [bool(text)] for the [Optional[str]] that [recognize_speech] returns. *)
Definition heard (text : option string) : option string :=
  match text with
  | Some t => if Str.truthy t then Some t else None
  | None => None
  end.

(** [_handle_hotkey_activation]; [recognized] is what
    [recognize_speech(timeout=15)] returns. *)
Definition _handle_hotkey_activation (recognized : option string) (now : Z)
    (freed : option Z) (s : EventLoop) : EventLoop * Z :=
  let s := set_hotkey_active true s in
  let '(s, waited) :=
    match heard recognized with
    | Some command =>
        enqueue {| queued_text := command; queued_at := now; source := "hotkey" |} freed s
    | None => (s, 0)
    end in
  (set_hotkey_active false s, waited).

Definition _is_wake_word (s : EventLoop) (text : string) : bool :=
  if negb (Str.truthy text) then false
  else
    let text_lower := Str.strip (Str.lower text) in
    let wake_word_lower := Str.lower (wake_word s) in
    Str.contains wake_word_lower text_lower || Str.contains text_lower wake_word_lower.

(** One turn of the [while] loop of [_wake_word_detection_loop], up to the
    [time.sleep(0.1)]; [first] and [second] are what the two calls of
    [recognize_speech] return. *)
Definition _wake_word_detection_step (first second : option string) (now : Z)
    (freed : option Z) (s : EventLoop) : EventLoop * Z :=
  if wake_word_enabled s && negb (processing_command s) then
    match heard first with
    | Some command =>
        if _is_wake_word s command then
          let s := speak "Yes? I'm listening" s in
          match heard second with
          | Some full_command =>
              enqueue {| queued_text := full_command; queued_at := now; source := "wake_word" |}
                      freed s
          | None => (s, 0)
          end
        else (s, 0)
    | None => (s, 0)
    end
  else (s, 0).

End EventLoop.

(** ** The consumer of the event loop  ([event_loop.py]) *)

(** The event loop with its collaborators and the fields the consumer
    writes.  [sensitive_commands_hotkey_only] is
    [config.privacy.sensitive_commands_hotkey_only], [None] when the
    [PrivacyConfig] object has no such attribute (the dataclass declares none;
    [load_environment_variables] sets it). *)
Record Pipeline : Type := {
  loop : EventLoop;
  nlp_processor : NLPProcessor;
  command_dispatcher : CommandDispatcher;
  commands_processed : Z;
  loop_commands_failed : Z;
  sensitive_commands_hotkey_only : option bool
}.

Module Consumer.

Definition set_loop (f : EventLoop -> EventLoop) (p : Pipeline) : Pipeline :=
  {| loop := f (loop p); nlp_processor := nlp_processor p;
     command_dispatcher := command_dispatcher p;
     commands_processed := commands_processed p;
     loop_commands_failed := loop_commands_failed p;
     sensitive_commands_hotkey_only := sensitive_commands_hotkey_only p |}.

Definition set_collaborators (n : NLPProcessor) (d : CommandDispatcher) (p : Pipeline)
    : Pipeline :=
  {| loop := loop p; nlp_processor := n; command_dispatcher := d;
     commands_processed := commands_processed p;
     loop_commands_failed := loop_commands_failed p;
     sensitive_commands_hotkey_only := sensitive_commands_hotkey_only p |}.

Definition count (processed failed : Z) (p : Pipeline) : Pipeline :=
  {| loop := loop p; nlp_processor := nlp_processor p;
     command_dispatcher := command_dispatcher p;
     commands_processed := commands_processed p + processed;
     loop_commands_failed := loop_commands_failed p + failed;
     sensitive_commands_hotkey_only := sensitive_commands_hotkey_only p |}.

Definition set_processing (b : bool) (s : EventLoop) : EventLoop :=
  {| wake_word_enabled := wake_word_enabled s; wake_word := wake_word s;
     command_queue := command_queue s; processing_command := b;
     hotkey_active := hotkey_active s; spoken := spoken s |}.

(** [ExecutionResult(success=False, message=..., error=...)] *)
Definition failure (now : Z) (msg err : string) : ExecutionResult :=
  {| success := false; message := msg; data := None; error := Some err;
     execution_time := 0; result_timestamp := now |}.

(** How [_process_command] ends: with a result, or never, when the
    dispatcher waits for ever. *)
Inductive processed : Type :=
  | Done (r : ExecutionResult) (p : Pipeline)
  | Stuck (p : Pipeline).

(** [self.command_queue.get(timeout=1.0)]: the head of the queue, [None]
    for [queue.Empty]. *)
Definition queue_get (q : list CommandQueue) : option (CommandQueue * list CommandQueue) :=
  match q with
  | [] => None
  | item :: rest => Some (item, rest)
  end.

Section WithRuntime.
Context `{Runtime}.

(** The [except Exception as e] branch of [_process_command], then its
    [finally]. *)
Definition absorbed (now : Z) (e : exn) (p : Pipeline) : processed :=
  Done (failure now ("Error processing command: " +:+ exn_str e) (exn_str e))
       (set_loop (set_processing false) (count 0 1 p)).

(** [_process_command]; the item's inner queue holds the recognised text.
    A [CommandResult] is always truthy, so the [if not command_result] branch
    is never taken. *)
Definition _process_command (remote : completion) (start_time now : Z)
    (item : CommandQueue) (p : Pipeline) : processed :=
  let command_text := queued_text item in
  let p := set_loop (set_processing true) p in
  match NLPProcessor.process_command remote now command_text (nlp_processor p) with
  | (Raise e, n) => absorbed now e (set_collaborators n (command_dispatcher p) p)
  | (Ret command_result, n) =>
      let p := set_collaborators n (command_dispatcher p) p in
      let dispatch (_ : unit) :=
        match CommandDispatcher.dispatch_command start_time now command_result
                (command_dispatcher p) with
        | CommandDispatcher.Returned result d =>
            let p := set_collaborators (nlp_processor p) d p in
            let p := count 1 (if success result then 0 else 1) p in
            Done result (set_loop (set_processing false) p)
        | CommandDispatcher.Raised e d =>
            absorbed now e (set_collaborators (nlp_processor p) d p)
        | CommandDispatcher.Blocked d =>
            Stuck (set_collaborators (nlp_processor p) d p)
        end in
      if requires_confirmation command_result && String.eqb (source item) "wake_word" then
        match sensitive_commands_hotkey_only p with
        | Some true =>
            Done (failure now "This command requires hotkey activation (Ctrl+Space)"
                    "Sensitive command from wake word")
                 (set_loop (set_processing false) p)
        | Some false => dispatch tt
        | None =>
            absorbed now
              (AttributeError
                 "'PrivacyConfig' object has no attribute 'sensitive_commands_hotkey_only'")
              p
        end
      else dispatch tt
  end.

(** [_provide_command_feedback]: what is spoken for a result. *)
Definition _provide_command_feedback (result : ExecutionResult) (s : EventLoop)
    : outcome EventLoop :=
  if success result then Ret (EventLoop.speak (message result) s)
  else
    match error result with
    | None => Raise (no_attribute VNone "lower")
    | Some err =>
        if Str.contains "requires confirmation" (Str.lower err) then
          Ret (EventLoop.speak "Please confirm by pressing Ctrl+Space and saying 'confirm'" s)
        else
          Ret (EventLoop.speak ("I'm sorry, " +:+ Str.lower (message result)) s)
    end.

(** One turn of the [while] loop of [_main_processing_loop].  An exception
    of the feedback is logged by the outer [except]. *)
Definition main_loop_turn (remote : completion) (start_time now : Z) (p : Pipeline)
    : processed + Pipeline :=
  match queue_get (command_queue (loop p)) with
  | None => inr p
  | Some (item, rest) =>
      let p := set_loop (EventLoop.set_queue rest) p in
      match _process_command remote start_time now item p with
      | Stuck p => inl (Stuck p)
      | Done result p =>
          match _provide_command_feedback result (loop p) with
          | Ret s => inl (Done result (set_loop (fun _ => s) p))
          | Raise _ => inl (Done result p)
          end
      end
  end.

End WithRuntime.

End Consumer.

(** ** An implementation of the library: regular expressions *)

Module Re.

(** The fragment of Python's pattern syntax the resolver's patterns use. *)
Inductive regex : Type :=
  | Empty
  | Lit (c : ascii)
  | AnyChar                                  (* .  *)
  | Space                                    (* \s *)
  | Digit                                    (* \d *)
  | Boundary                                 (* \b *)
  | EndAnchor                                (* $  *)
  | Cat (r1 r2 : regex)
  | Or (r1 r2 : regex)
  | Star (r : regex) (greedy : bool)
  | Capture (index : nat) (r : regex).

Definition Plus (r : regex) (greedy : bool) : regex := Cat r (Star r greedy).
Definition Opt (r : regex) (greedy : bool) : regex :=
  if greedy then Or r Empty else Or Empty r.

(** *** Parsing a pattern *)

Definition parsed : Type := (regex * list ascii * nat)%type.

(** A quantifier after an atom: [+ * ?], lazy when followed by [?]. *)
Definition quantify (atom : regex) (s : list ascii) : regex * list ascii :=
  match s with
  | "+" :: "?" :: s' => (Plus atom false, s')
  | "+" :: s' => (Plus atom true, s')
  | "*" :: "?" :: s' => (Star atom false, s')
  | "*" :: s' => (Star atom true, s')
  | "?" :: "?" :: s' => (Opt atom false, s')
  | "?" :: s' => (Opt atom true, s')
  | _ => (atom, s)
  end%char.

Definition escape (c : ascii) : option regex :=
  if Ascii.eqb c "s" then Some Space
  else if Ascii.eqb c "d" then Some Digit
  else if Ascii.eqb c "b" then Some Boundary
  else if Str.isdigit c || Str.isupper c || Str.isupper (ascii_of_nat (nat_of_ascii c - 32))
  then None
  else Some (Lit c).

(** [n] is the number of capturing groups opened so far. *)
Fixpoint parse_alt (fuel : nat) (s : list ascii) (n : nat) : option parsed :=
  match fuel with
  | O => None
  | S fuel =>
      match parse_seq fuel s n with
      | Some (r1, "|"%char :: s', n') =>
          match parse_alt fuel s' n' with
          | Some (r2, s'', n'') => Some (Or r1 r2, s'', n'')
          | None => None
          end
      | other => other
      end
  end
with parse_seq (fuel : nat) (s : list ascii) (n : nat) : option parsed :=
  match fuel with
  | O => None
  | S fuel =>
      match s with
      | [] => Some (Empty, s, n)
      | c :: _ =>
          if Ascii.eqb c "|" || Ascii.eqb c ")" then Some (Empty, s, n)
          else
            match parse_atom fuel s n with
            | Some (atom, s', n') =>
                let '(item, s'') := quantify atom s' in
                match parse_seq fuel s'' n' with
                | Some (Empty, s3, n3) => Some (item, s3, n3)
                | Some (r, s3, n3) => Some (Cat item r, s3, n3)
                | None => None
                end
            | None => None
            end
      end
  end
with parse_atom (fuel : nat) (s : list ascii) (n : nat) : option parsed :=
  match fuel with
  | O => None
  | S fuel =>
      match s with
      | "("%char :: "?"%char :: ":"%char :: s' =>
          match parse_alt fuel s' n with
          | Some (r, ")"%char :: s'', n') => Some (r, s'', n')
          | _ => None
          end
      | "("%char :: s' =>
          match parse_alt fuel s' (S n) with
          | Some (r, ")"%char :: s'', n') => Some (Capture n r, s'', n')
          | _ => None
          end
      | "\"%char :: c :: s' =>
          match escape c with
          | Some r => Some (r, s', n)
          | None => None
          end
      | "."%char :: s' => Some (AnyChar, s', n)
      | "$"%char :: s' => Some (EndAnchor, s', n)
      | c :: s' =>
          if bool_decide (c ∈ ["*"; "+"; "?"; "["; "]"; "{"; "}"; "^"; "\"]%char) then None
          else Some (Lit c, s', n)
      | [] => None
      end
  end.

(** [re.compile(pattern)]: the expression and its number of groups. *)
Definition compile (pattern : string) : option (regex * nat) :=
  let s := Str.to_list pattern in
  match parse_alt (4 * length s + 8) s 0 with
  | Some (r, [], n) => Some (r, n)
  | _ => None
  end.

(** *** Matching by backtracking *)

Definition captures : Type := list (option string).

(** What remains to be matched: called with the character before the
    position, the rest of the text and the groups so far. *)
Definition cont : Type := option ascii -> list ascii -> captures -> option captures.

Definition is_word (c : ascii) : bool :=
  Str.isdigit c || Str.isupper c || Str.isupper (ascii_of_nat (nat_of_ascii c - 32))
  || Ascii.eqb c "_".

Definition at_boundary (prev : option ascii) (rest : list ascii) : bool :=
  xorb (from_option is_word false prev)
       (match rest with c :: _ => is_word c | [] => false end).

Definition same_char (ignorecase : bool) (c x : ascii) : bool :=
  if ignorecase then Ascii.eqb (Str.lower_char c) (Str.lower_char x) else Ascii.eqb c x.

Definition newline : ascii := ascii_of_nat 10.

(** One character accepted by [ok]. *)
Definition one (ok : ascii -> bool) (rest : list ascii) (caps : captures) (k : cont)
    : option captures :=
  match rest with
  | x :: rest' => if ok x then k (Some x) rest' caps else None
  | [] => None
  end.

(** The alternatives are tried in Python's order: left branch first, one more
    turn of a greedy loop before leaving it, and the reverse for a lazy one.
    A turn of a loop has to consume text. *)
Fixpoint run (ignorecase : bool) (r : regex) (prev : option ascii) (rest : list ascii)
    (caps : captures) (k : cont) {struct r} : option captures :=
  match r with
  | Empty => k prev rest caps
  | Lit c => one (same_char ignorecase c) rest caps k
  | AnyChar => one (fun x => negb (Ascii.eqb x newline)) rest caps k
  | Space => one Str.isspace rest caps k
  | Digit => one Str.isdigit rest caps k
  | Boundary => if at_boundary prev rest then k prev rest caps else None
  | EndAnchor =>
      match rest with
      | [] => k prev rest caps
      | [x] => if Ascii.eqb x newline then k prev rest caps else None
      | _ => None
      end
  | Cat r1 r2 =>
      run ignorecase r1 prev rest caps
        (fun prev' rest' caps' => run ignorecase r2 prev' rest' caps' k)
  | Or r1 r2 =>
      match run ignorecase r1 prev rest caps k with
      | Some c => Some c
      | None => run ignorecase r2 prev rest caps k
      end
  | Star body greedy =>
      (fix loop (fuel : nat) (prev : option ascii) (rest : list ascii) (caps : captures)
         : option captures :=
         match fuel with
         | O => k prev rest caps
         | S fuel' =>
             let again (_ : unit) :=
               run ignorecase body prev rest caps
                 (fun prev' rest' caps' =>
                    if (length rest' <? length rest)%nat then loop fuel' prev' rest' caps'
                    else None) in
             if greedy then
               match again tt with
               | Some c => Some c
               | None => k prev rest caps
               end
             else
               match k prev rest caps with
               | Some c => Some c
               | None => again tt
               end
         end) (S (length rest)) prev rest caps
  | Capture index body =>
      run ignorecase body prev rest caps
        (fun prev' rest' caps' =>
           let matched := take (length rest - length rest') rest in
           k prev' rest' (<[index := Some (Str.of_list matched)]> caps'))
  end.

Definition match_at (ignorecase : bool) (r : regex) (groups : nat)
    (prev : option ascii) (rest : list ascii) : option captures :=
  run ignorecase r prev rest (replicate groups None) (fun _ _ caps => Some caps).

(** The leftmost match: each start position in turn. *)
Fixpoint search_from (ignorecase : bool) (r : regex) (groups : nat)
    (prev : option ascii) (rest : list ascii) : option captures :=
  match match_at ignorecase r groups prev rest with
  | Some c => Some c
  | None =>
      match rest with
      | [] => None
      | x :: rest' => search_from ignorecase r groups (Some x) rest'
      end
  end.

(** [re.match(pattern, text, re.IGNORECASE)] and [re.search(pattern, text)],
    both giving [match.groups()]. *)
Definition match_ignorecase (pattern text : string) : option captures :=
  match compile pattern with
  | Some (r, groups) => match_at true r groups None (Str.to_list text)
  | None => None
  end.

Definition search (pattern text : string) : option captures :=
  match compile pattern with
  | Some (r, groups) => search_from false r groups None (Str.to_list text)
  | None => None
  end.

End Re.

(** ** An implementation of the library: MD5  (RFC 1321) *)

Module MD5.

Definition mask32 (x : Z) : Z := Z.land x 4294967295.
Definition not32 (x : Z) : Z := Z.lxor x 4294967295.
Definition rotl32 (x c : Z) : Z :=
  mask32 (Z.lor (Z.shiftl x c) (Z.shiftr x (32 - c))).

(** [K[i] = floor(2^32 * abs(sin(i + 1)))] *)
Definition K : list Z :=
  [
    3614090360; 3905402710; 606105819; 3250441966;
    4118548399; 1200080426; 2821735955; 4249261313;
    1770035416; 2336552879; 4294925233; 2304563134;
    1804603682; 4254626195; 2792965006; 1236535329;
    4129170786; 3225465664; 643717713; 3921069994;
    3593408605; 38016083; 3634488961; 3889429448;
    568446438; 3275163606; 4107603335; 1163531501;
    2850285829; 4243563512; 1735328473; 2368359562;
    4294588738; 2272392833; 1839030562; 4259657740;
    2763975236; 1272893353; 4139469664; 3200236656;
    681279174; 3936430074; 3572445317; 76029189;
    3654602809; 3873151461; 530742520; 3299628645;
    4096336452; 1126891415; 2878612391; 4237533241;
    1700485571; 2399980690; 4293915773; 2240044497;
    1873313359; 4264355552; 2734768916; 1309151649;
    4149444226; 3174756917; 718787259; 3951481745 ].

Definition shifts : list Z :=
  [ 7; 12; 17; 22; 7; 12; 17; 22; 7; 12; 17; 22; 7; 12; 17; 22;
    5; 9; 14; 20; 5; 9; 14; 20; 5; 9; 14; 20; 5; 9; 14; 20;
    4; 11; 16; 23; 4; 11; 16; 23; 4; 11; 16; 23; 4; 11; 16; 23;
    6; 10; 15; 21; 6; 10; 15; 21; 6; 10; 15; 21; 6; 10; 15; 21 ].

Definition state : Type := (Z * Z * Z * Z)%type.

Definition initial : state := (1732584193, 4023233417, 2562383102, 271733878).

Definition nth_word (l : list Z) (i : nat) : Z := default 0 (l !! i).

(** One of the 64 operations on a block [M] of sixteen words. *)
Definition step (M : list Z) (st : state) (i : nat) : state :=
  let '(a, b, c, d) := st in
  let '(f, g) :=
    if (i <? 16)%nat then (Z.lor (Z.land b c) (Z.land (not32 b) d), i)
    else if (i <? 32)%nat then (Z.lor (Z.land d b) (Z.land (not32 d) c), ((5 * i + 1) mod 16)%nat)
    else if (i <? 48)%nat then (Z.lxor (Z.lxor b c) d, ((3 * i + 5) mod 16)%nat)
    else (Z.lxor c (Z.lor b (not32 d)), ((7 * i) mod 16)%nat) in
  let f := mask32 (f + a + nth_word K i + nth_word M g) in
  (d, mask32 (b + rotl32 f (nth_word shifts i)), b, c).

Definition block (st : state) (M : list Z) : state :=
  let '(a0, b0, c0, d0) := st in
  let '(a, b, c, d) := foldl (step M) st (seq 0 64) in
  (mask32 (a0 + a), mask32 (b0 + b), mask32 (c0 + c), mask32 (d0 + d)).

(** Little-endian words of a list of bytes, four bytes each. *)
Fixpoint words (bytes : list Z) (fuel : nat) : list Z :=
  match fuel, bytes with
  | S fuel, b0 :: b1 :: b2 :: b3 :: rest =>
      (b0 + Z.shiftl b1 8 + Z.shiftl b2 16 + Z.shiftl b3 24) :: words rest fuel
  | _, _ => []
  end.

Fixpoint blocks (ws : list Z) (fuel : nat) : list (list Z) :=
  match fuel, ws with
  | S fuel, _ :: _ => take 16 ws :: blocks (drop 16 ws) fuel
  | _, _ => []
  end.

Definition le_bytes (n : nat) (x : Z) : list Z :=
  map (fun i => Z.land (Z.shiftr x (8 * Z.of_nat i)) 255) (seq 0 n).

(** The message, a 1 bit, zeros up to 56 modulo 64, and the bit length. *)
Definition pad (bytes : list Z) : list Z :=
  let len := Z.of_nat (length bytes) in
  let zeros := Z.to_nat ((55 - len) mod 64) in
  bytes ++ [128] ++ replicate zeros 0 ++ le_bytes 8 (Z.land (8 * len) (2 ^ 64 - 1)).

Definition hex_digit (n : Z) : ascii :=
  ascii_of_nat (Z.to_nat (if n <? 10 then 48 + n else 87 + n)).

Definition hex_byte (b : Z) : list ascii := [hex_digit (Z.shiftr b 4); hex_digit (Z.land b 15)].

Definition digest (bytes : list Z) : state :=
  let padded := pad bytes in
  let ws := words padded (length padded) in
  foldl block initial (blocks ws (length ws)).

(** [hashlib.md5(text.encode()).hexdigest()] for ASCII text. *)
Definition hexdigest (text : string) : string :=
  let bytes := map (fun c => Z.of_nat (nat_of_ascii c)) (Str.to_list text) in
  let '(a, b, c, d) := digest bytes in
  Str.of_list (concat (map hex_byte (concat (map (le_bytes 4) [a; b; c; d])))).

End MD5.

(** The library as implemented above. *)
#[export] Instance py_runtime : Runtime := {|
  re_match_ignorecase := Re.match_ignorecase;
  re_search := Re.search;
  md5_hexdigest := MD5.hexdigest
|}.

(** ** Sample data *)

Module Sample.

(** A handler that ends at once with the text ["done"]. *)
Definition done : Handler := fun _ => Returns (AsValue (VStr "done")).

Definition system_control : SystemControl :=
  {| open_application := done; close_application := done; set_volume := done;
     shutdown_system := done; restart_system := done; get_system_info := done |}.

Definition entertainment : EntertainmentController :=
  {| play_music := done; pause_resume_music := done; next_track := done;
     previous_track := done |}.

(** A dispatcher with two of its components, before any command. *)
Definition dispatcher : CommandDispatcher :=
  CommandDispatcher.new (Some system_control) None None None (Some entertainment) None.

Definition fallback_command (intent : string) (entities : gmap string value)
    (confirm : bool) (text : string) : CommandResult :=
  {| intent := intent; entities := entities; confidence := 0.7%float;
     requires_confirmation := confirm; raw_text := text;
     processing_method := "fallback"; timestamp := 0 |}.

Definition shutdown_confirmed : CommandResult :=
  fallback_command "shutdown_system" ∅ true "shutdown the computer".

Definition shutdown_unconfirmed : CommandResult :=
  fallback_command "shutdown_system" ∅ false "shutdown the computer".

Definition open_chrome : CommandResult :=
  fallback_command "open_app" {[ "app_name" := VStr "Chrome" ]} false "open chrome".

Definition get_info : CommandResult :=
  fallback_command "get_system_info" ∅ false "system info".

Definition succeeded : ExecutionResult :=
  {| success := true; message := "done"; data := Some {[ "result" := VStr "done" ]};
     error := None; execution_time := 0; result_timestamp := 0 |}.

Definition entry (c : CommandResult) (r : ExecutionResult) : CommandHistory :=
  {| command := c; result := r; entry_timestamp := 0 |}.

Definition with_history (h : list CommandHistory) : CommandDispatcher :=
  CommandDispatcher.set_history (fun _ => h) dispatcher.

(** A resolver with the remote path and the cache on, a TTL of one hour and
    nothing cached; the same with the remote path off. *)
Definition resolver : NLPProcessor :=
  {| config := {| use_openai := true; cache_responses := true; cache_ttl_hours := 1 |};
     openai_client := true; cache := ∅; requests_made := 0; cache_hits := 0;
     remote_calls := [] |}.

Definition offline_resolver : NLPProcessor :=
  {| config := {| use_openai := false; cache_responses := true; cache_ttl_hours := 1 |};
     openai_client := false; cache := ∅; requests_made := 0; cache_hits := 0;
     remote_calls := [] |}.

(** A completion service that answers every text with [get_time]. *)
Definition remote : completion := fun _ =>
  Some {| reply_intent := Some "get_time"; reply_entities := Some ∅;
          reply_confidence := Some 0.95%float;
          reply_requires_confirmation := Some (VBool false) |}.

(** A completion service that is down. *)
Definition remote_down : completion := fun _ => None.

Definition one_hour : Z := 3600000000.

(** An event loop whose queue holds a hundred utterances. *)
Definition queued (n : nat) : CommandQueue :=
  {| queued_text := "play song " +:+ pretty n; queued_at := Z.of_nat n; source := "hotkey" |}.

Definition busy_loop : EventLoop :=
  {| wake_word_enabled := true; wake_word := "jarvis";
     command_queue := map queued (seq 0 100);
     processing_command := false; hotkey_active := false; spoken := [] |}.

(** An event loop with an empty queue, and the pipeline around it. *)
Definition idle_loop : EventLoop :=
  {| wake_word_enabled := true; wake_word := "jarvis"; command_queue := [];
     processing_command := false; hotkey_active := false; spoken := [] |}.

Definition pipeline (policy : option bool) (d : CommandDispatcher) : Pipeline :=
  {| loop := idle_loop; nlp_processor := offline_resolver; command_dispatcher := d;
     commands_processed := 0; loop_commands_failed := 0;
     sensitive_commands_hotkey_only := policy |}.

Definition heard_after_wake_word (text : string) : CommandQueue :=
  {| queued_text := text; queued_at := 0; source := "wake_word" |}.

Definition heard_after_hotkey (text : string) : CommandQueue :=
  {| queued_text := text; queued_at := 0; source := "hotkey" |}.

(** A handler that fails and names no error. *)
Definition fails_quietly : Handler := fun _ =>
  Returns (AsResult {| success := false; message := "Could not open it"; data := None;
                       error := None; execution_time := 0; result_timestamp := 0 |}).

Definition quiet_dispatcher : CommandDispatcher :=
  CommandDispatcher.new
    (Some {| open_application := fails_quietly; close_application := done;
             set_volume := done; shutdown_system := done; restart_system := done;
             get_system_info := done |})
    None None None None None.

(** A dispatcher with all its components. *)
Definition full_dispatcher : CommandDispatcher :=
  CommandDispatcher.new
    (Some system_control)
    (Some {| search_google := done; search_youtube := done |})
    (Some {| get_weather := done; get_news := done; get_wikipedia_summary := done;
             get_current_time := done; get_current_date := done;
             answer_general_question := done |})
    (Some {| send_email := done |})
    (Some entertainment)
    (Some {| set_reminder := done; set_timer := done |}).

(** A completion service whose reply names no intent. *)
Definition remote_without_intent : completion := fun _ =>
  Some {| reply_intent := None; reply_entities := None;
          reply_confidence := Some 0.9%float; reply_requires_confirmation := None |}.

Definition time_command : CommandResult :=
  {| intent := "get_time"; entities := ∅; confidence := 0.95%float;
     requires_confirmation := false; raw_text := "what time is it";
     processing_method := "openai"; timestamp := 0 |}.

(** A resolver whose cache holds, for "what time is it", an entry with a TTL
    of 24 000 000 000 hours. *)
Definition poisoned_resolver : NLPProcessor :=
  {| config := {| use_openai := true; cache_responses := true; cache_ttl_hours := 1 |};
     openai_client := true;
     cache := {[ NLPProcessor._get_cache_key "what time is it"
                 := {| key := NLPProcessor._get_cache_key "what time is it";
                       response := time_command; created_at := 0;
                       ttl_hours := 24000000000 |} ]};
     requests_made := 0; cache_hits := 0; remote_calls := [] |}.

(** A resolver with one entry cached at time 0 for an hour. *)
Definition warm_resolver : NLPProcessor :=
  NLPProcessor._cache_response 0 "what time is it" time_command resolver.

Definition timer_command (n : Z) (unit : string) : CommandResult :=
  fallback_command "set_timer" {[ "time_value" := VInt n; "time_unit" := VStr unit ]}
                   false "timer".

(** A member of the cache file without its creation date. *)
Definition undated_entry : NLPProcessor.StoredEntry :=
  {| NLPProcessor.stored_response := Some (NLPProcessor.store_command time_command);
     NLPProcessor.stored_created_at := None;
     NLPProcessor.stored_ttl_hours := Some 1 |}.

End Sample.

(** * Properties *)

(** ** The library at work *)

(** Every pattern of the resolver is in the fragment that [Re] parses. *)
Lemma patterns_compile :
  Forall (fun pattern => is_Some (Re.compile pattern))
    (FallbackProcessor.sensitive_patterns
     ++ concat (map snd FallbackProcessor.intent_patterns)).
Proof.
  apply Forall_forall. intros pattern Hin.
  repeat (apply elem_of_cons in Hin as [-> | Hin]; [vm_compute; eexists; reflexivity |]).
  apply elem_of_nil in Hin. contradiction.
Qed.

(** The test suite of RFC 1321. *)
Lemma md5_test_suite :
  MD5.hexdigest "" = "d41d8cd98f00b204e9800998ecf8427e"
  /\ MD5.hexdigest "abc" = "900150983cd24fb0d6963f7d28e17f72"
  /\ MD5.hexdigest "message digest" = "f96b697d7cb7938d525a2f31aaf161d0"
  /\ MD5.hexdigest "abcdefghijklmnopqrstuvwxyz" = "c3fcd3d76192e4007dfb496cca67e13b"
  /\ MD5.hexdigest
       "12345678901234567890123456789012345678901234567890123456789012345678901234567890"
     = "57edf4a22be3c955ac49da2e2107b67a".
Proof. repeat split; vm_compute; reflexivity. Qed.

(** "open chrome", offline: [open_app] for "chrome", confidence 0.7, no
    confirmation; the dispatcher invokes the handler and records the
    success. *)
Lemma open_chrome_end_to_end :
  let c := {| intent := "open_app"; entities := {[ "app_name" := VStr "chrome" ]};
              confidence := 0.7%float; requires_confirmation := false;
              raw_text := "open chrome"; processing_method := "fallback";
              timestamp := 0 |} in
  NLPProcessor.process_command Sample.remote_down 0 "Open Chrome" Sample.offline_resolver
    = (Ret c, Sample.offline_resolver)
  /\ CommandValidator.validate_command c = Ret (true, None)
  /\ exists d',
       CommandDispatcher.dispatch_command 1 2 c Sample.dispatcher
         = CommandDispatcher.Returned
             {| success := true; message := "done";
                data := Some {[ "result" := VStr "done" ]}; error := None;
                execution_time := 0; result_timestamp := 2 |} d'
       /\ invocations d' = [c]
       /\ map command (command_history d') = [c]
       /\ commands_executed d' = 1.
Proof.
  cbv zeta. split; [vm_compute; reflexivity |]. split; [vm_compute; reflexivity |].
  eexists. split; [vm_compute; reflexivity |]. repeat split.
Qed.

(** "shutdown the computer", offline: the intent forces the confirmation
    flag, whatever the text. *)
Lemma shutdown_resolves_with_confirmation :
  NLPProcessor.process_command Sample.remote_down 0 "shutdown the computer"
    Sample.offline_resolver
  = (Ret Sample.shutdown_confirmed, Sample.offline_resolver).
Proof. vm_compute. reflexivity. Qed.

(** ** Dispatcher: validation and the confirmation gate *)

Section DispatcherGate.
Context `{Runtime}.
Import CommandDispatcher.

(** A command the validator rejects never reaches the registry: the result
    carries the validator's reason and the dispatcher is left as it was. *)
Lemma dispatch_rejected (d : CommandDispatcher) (start_time now : Z)
    (c : CommandResult) (reason : option string) :
  CommandValidator.validate_command c = Ret (false, reason) ->
  dispatch_command start_time now c d =
    Returned {| success := false;
                message := "Command validation failed: " +:+ optional_str reason;
                data := None;
                error := reason;
                execution_time := now - start_time;
                result_timestamp := now |} d.
Proof.
  intros Hv. unfold dispatch_command, try_except, bind, lift.
  rewrite Hv. reflexivity.
Qed.

(** A valid command that has a handler and asks for confirmation stops at
    the gate, and the dispatcher is left as it was. *)
Lemma dispatch_gated (d : CommandDispatcher) (start_time now : Z)
    (c : CommandResult) (reason : option string) (h : Handler) :
  CommandValidator.validate_command c = Ret (true, reason) ->
  lookup_handler d (intent c) = Some h ->
  requires_confirmation c = true ->
  dispatch_command start_time now c d =
    Returned {| success := false;
                message := "Command '" +:+ intent c
                           +:+ "' requires confirmation. Please confirm to proceed.";
                data := Some {[ "requires_confirmation" := VBool true ]};
                error := Some "Confirmation required";
                execution_time := now - start_time;
                result_timestamp := now |} d.
Proof.
  intros Hv Hh Hc. unfold dispatch_command, try_except, bind, lift, get.
  rewrite Hv. cbn [negb]. rewrite Hh, Hc. reflexivity.
Qed.

(** C1. A command with [requires_confirmation = true] that passes validation
    and has a registered handler gets the confirmation-needed result
    (no success, error "Confirmation required", [requires_confirmation] set
    in the data), and no handler is invoked: the list of invocations is the
    one before the call. *)
Theorem confirmation_gate_blocks_handler (d : CommandDispatcher) (start_time now : Z)
    (c : CommandResult) (reason : option string) (h : Handler) :
  requires_confirmation c = true ->
  CommandValidator.validate_command c = Ret (true, reason) ->
  lookup_handler d (intent c) = Some h ->
  exists r d',
    dispatch_command start_time now c d = Returned r d'
    /\ success r = false
    /\ error r = Some "Confirmation required"
    /\ data r = Some {[ "requires_confirmation" := VBool true ]}
    /\ invocations d' = invocations d.
Proof.
  intros Hc Hv Hh. eexists _, d. split.
  - exact (dispatch_gated d start_time now c reason h Hv Hh Hc).
  - cbn. auto.
Qed.

End DispatcherGate.

(** ** Validator: system-altering intents *)

(** C2. A shutdown or restart command whose [requires_confirmation] is false
    is rejected by [validate_command], with the reason of the confidence gate
    or of the system check.  The validator's whole result is this verdict: it
    hands back no command, so the flag of the command is as it was. *)
Theorem system_command_without_confirmation_rejected (c : CommandResult) :
  intent c ∈ ["shutdown_system"; "restart_system"] ->
  requires_confirmation c = false ->
  CommandValidator.validate_command c = Ret (false, Some "Command confidence too low")
  \/ CommandValidator.validate_command c = Ret (false, Some "System commands require confirmation").
Proof.
  intros Hi Hc. unfold CommandValidator.validate_command.
  destruct (PrimFloat.ltb (confidence c) 0.3); [left; reflexivity | right].
  assert (Hcases : intent c = "shutdown_system" \/ intent c = "restart_system").
  { apply elem_of_cons in Hi as [Hi | Hi]; [left; exact Hi |].
    apply elem_of_cons in Hi as [Hi | Hi]; [right; exact Hi |].
    apply elem_of_nil in Hi. contradiction. }
  unfold CommandValidator._validate_system_command.
  destruct Hcases as [-> | ->]; cbn; rewrite Hc; reflexivity.
Qed.

Lemma system_command_without_confirmation_rejected_witness :
  CommandValidator.validate_command Sample.shutdown_unconfirmed
    = Ret (false, Some "Command confidence too low")
  \/ CommandValidator.validate_command Sample.shutdown_unconfirmed
    = Ret (false, Some "System commands require confirmation").
Proof.
  apply (system_command_without_confirmation_rejected Sample.shutdown_unconfirmed).
  - apply elem_of_cons. left. reflexivity.
  - reflexivity.
Defined.

Lemma confirmation_gate_blocks_handler_witness :
  exists r d',
    CommandDispatcher.dispatch_command 0 5 Sample.shutdown_confirmed Sample.dispatcher
      = CommandDispatcher.Returned r d'
    /\ success r = false
    /\ error r = Some "Confirmation required"
    /\ data r = Some {[ "requires_confirmation" := VBool true ]}
    /\ invocations d' = invocations Sample.dispatcher.
Proof.
  apply (confirmation_gate_blocks_handler Sample.dispatcher 0 5 Sample.shutdown_confirmed
           None Sample.done).
  - reflexivity.
  - vm_compute. reflexivity.
  - vm_compute. reflexivity.
Defined.

(** ** Dispatcher: what a rejected dispatch leaves behind *)

Section RejectedDispatch.
Context `{Runtime}.
Import CommandDispatcher.

(** C5, as the code has it.  A command that fails validation, or that is
    valid, has a handler and is stopped at the confirmation gate, gets a
    failed result with the validator's reason, respectively "Confirmation
    required", and the dispatcher is exactly as before: nothing is added to
    the history and no counter moves. *)
Theorem rejected_dispatch_not_recorded (d : CommandDispatcher) (start_time now : Z)
    (c : CommandResult) (reason : option string) :
  CommandValidator.validate_command c = Ret (false, reason)
  \/ (CommandValidator.validate_command c = Ret (true, reason)
      /\ is_Some (lookup_handler d (intent c))
      /\ requires_confirmation c = true) ->
  exists r,
    dispatch_command start_time now c d = Returned r d
    /\ success r = false
    /\ (CommandValidator.validate_command c = Ret (false, reason) -> error r = reason)
    /\ (CommandValidator.validate_command c = Ret (true, reason) ->
        error r = Some "Confirmation required").
Proof.
  intros [Hv | (Hv & [h Hh] & Hc)].
  - eexists. split; [exact (dispatch_rejected d start_time now c reason Hv) |].
    cbn. split; [reflexivity |]. split; intros Hv'; [reflexivity | congruence].
  - eexists. split; [exact (dispatch_gated d start_time now c reason h Hv Hh Hc) |].
    cbn. split; [reflexivity |]. split; intros Hv'; [congruence | reflexivity].
Qed.

End RejectedDispatch.

Lemma rejected_dispatch_not_recorded_witness :
  exists r,
    CommandDispatcher.dispatch_command 0 5 Sample.shutdown_unconfirmed Sample.dispatcher
      = CommandDispatcher.Returned r Sample.dispatcher
    /\ success r = false
    /\ (CommandValidator.validate_command Sample.shutdown_unconfirmed
          = Ret (false, Some "System commands require confirmation") ->
        error r = Some "System commands require confirmation")
    /\ (CommandValidator.validate_command Sample.shutdown_unconfirmed
          = Ret (true, Some "System commands require confirmation") ->
        error r = Some "Confirmation required").
Proof.
  apply (rejected_dispatch_not_recorded Sample.dispatcher 0 5 Sample.shutdown_unconfirmed
           (Some "System commands require confirmation")).
  left. vm_compute. reflexivity.
Defined.

(** C5, as the specification has it, fails: on a dispatcher with an empty
    history, "shutdown the computer" flagged for confirmation is stopped at
    the gate, and the same command without the flag fails validation; after
    either call the history is still empty, so the pair was not recorded. *)
Lemma rejected_dispatch_history_stays_empty :
  command_history Sample.dispatcher = []
  /\ (exists r d',
        CommandDispatcher.dispatch_command 0 5 Sample.shutdown_confirmed Sample.dispatcher
          = CommandDispatcher.Returned r d'
        /\ error r = Some "Confirmation required"
        /\ command_history d' = [])
  /\ (exists r d',
        CommandDispatcher.dispatch_command 0 5 Sample.shutdown_unconfirmed Sample.dispatcher
          = CommandDispatcher.Returned r d'
        /\ error r = Some "System commands require confirmation"
        /\ command_history d' = []).
Proof.
  split; [reflexivity |].
  split; eexists _, _; (split; [vm_compute; reflexivity |]); split; reflexivity.
Qed.

(** ** Undo *)

Section Undo.
Context `{Runtime}.
Import CommandDispatcher.

(** The scan passes over failed entries. *)
Lemma undo_scan_skips_failed (start_time now : Z) (recent rest : list CommandHistory) :
  Forall failed recent ->
  undo_scan start_time now (recent ++ rest) = undo_scan start_time now rest.
Proof.
  induction 1 as [| entry recent Hfailed _ IH]; [reflexivity |].
  cbn [app undo_scan]. rewrite Hfailed. exact IH.
Qed.

(** With [e] the most recent successful entry, the scan stops at [e]. *)
Lemma undo_scan_history (start_time now : Z) (older newer : list CommandHistory)
    (e : CommandHistory) :
  Forall failed newer ->
  undo_scan start_time now (reverse (older ++ e :: newer))
  = undo_scan start_time now (e :: reverse older).
Proof.
  intros Hnewer. rewrite reverse_app, reverse_cons, <- app_assoc.
  apply undo_scan_skips_failed. apply Forall_reverse. exact Hnewer.
Qed.

Lemma history_not_empty {B} (older newer : list CommandHistory) (e : CommandHistory)
    (x : B) (f : list CommandHistory -> B) :
  match older ++ e :: newer with
  | [] => x
  | _ => f (older ++ e :: newer)
  end = f (older ++ e :: newer).
Proof. destruct older; reflexivity. Qed.

(** Holding the lock changes neither the history nor the registry. *)
Lemma lookup_handler_set_lock (b : bool) (d : CommandDispatcher) (intent : string) :
  lookup_handler (set_lock b d) intent = lookup_handler d intent.
Proof. reflexivity. Qed.

Lemma set_lock_release (d : CommandDispatcher) :
  history_lock d = false -> set_lock false (set_lock true d) = d.
Proof. destruct d. cbn. intros ->. reflexivity. Qed.

(** The body of [undo_last_command], run with the lock held, when [e] is the
    most recent successful entry. *)
Lemma undo_body (start_time now : Z) (d : CommandDispatcher)
    (older newer : list CommandHistory) (e : CommandHistory) :
  command_history d = older ++ e :: newer ->
  Forall failed newer ->
  undo_last_command start_time now d
  = with_history_lock (undo_scan start_time now (e :: reverse older)) d.
Proof.
  intros Hhist Hnewer. unfold undo_last_command, with_history_lock.
  destruct (history_lock d); [reflexivity |].
  unfold bind at 1, get at 1.
  change (command_history (set_lock true d)) with (command_history d).
  rewrite Hhist.
  rewrite (history_not_empty older newer e _ (fun l => undo_scan start_time now (reverse l))).
  rewrite undo_scan_history by exact Hnewer.
  reflexivity.
Qed.

(** C6. When the most recent successful entry of the history is
    [open_app] with entities [{app_name: "Chrome"}], [undo_last_command] is
    the dispatch, under the history lock, of a new [close_app] command with
    the same entities and [requires_confirmation = false]; [dispatch_command]
    validates it again.  When the intent of that entry is not one of
    [open_app], [close_app], [play_music], the result is "Cannot undo
    command", whatever the older entries are, and the dispatcher is as
    before. *)
Theorem undo_resubmits_inverse_or_refuses (d : CommandDispatcher) (start_time now : Z)
    (older newer : list CommandHistory) (e : CommandHistory) :
  command_history d = older ++ e :: newer ->
  Forall failed newer ->
  success (result e) = true ->
  (intent (command e) = "open_app" ->
   entities (command e) = {[ "app_name" := VStr "Chrome" ]} ->
   undo_last_command start_time now d
   = with_history_lock
       (dispatch_command start_time now
          {| intent := "close_app";
             entities := {[ "app_name" := VStr "Chrome" ]};
             confidence := confidence (command e);
             requires_confirmation := false;
             raw_text := "Close Chrome";
             processing_method := processing_method (command e);
             timestamp := now |}) d)
  /\ (intent (command e) ∉ ["open_app"; "close_app"; "play_music"] ->
      history_lock d = false ->
      undo_last_command start_time now d
      = Returned (plain_failure now ("Cannot undo command: " +:+ intent (command e))) d).
Proof.
  intros Hhist Hnewer Hok.
  rewrite (undo_body start_time now d older newer e Hhist Hnewer).
  split.
  - intros Hintent Hentities.
    cbn [undo_scan]. rewrite Hok. unfold _create_undo_command.
    rewrite Hintent, Hentities. reflexivity.
  - intros Hintent Hfree.
    cbn [undo_scan]. rewrite Hok, (bool_decide_eq_false_2 _ Hintent).
    unfold with_history_lock, ret. rewrite Hfree, (set_lock_release d Hfree).
    reflexivity.
Qed.

End Undo.

Lemma undo_resubmits_inverse_or_refuses_witness :
  CommandDispatcher.undo_last_command 0 5
    (Sample.with_history [Sample.entry Sample.open_chrome Sample.succeeded])
  = CommandDispatcher.with_history_lock
      (CommandDispatcher.dispatch_command 0 5
         {| intent := "close_app";
            entities := {[ "app_name" := VStr "Chrome" ]};
            confidence := 0.7%float;
            requires_confirmation := false;
            raw_text := "Close Chrome";
            processing_method := "fallback";
            timestamp := 5 |})
      (Sample.with_history [Sample.entry Sample.open_chrome Sample.succeeded])
  /\ CommandDispatcher.undo_last_command 0 5
       (Sample.with_history [Sample.entry Sample.open_chrome Sample.succeeded;
                             Sample.entry Sample.get_info Sample.succeeded])
     = CommandDispatcher.Returned
         (CommandDispatcher.plain_failure 5 "Cannot undo command: get_system_info")
         (Sample.with_history [Sample.entry Sample.open_chrome Sample.succeeded;
                               Sample.entry Sample.get_info Sample.succeeded]).
Proof.
  split.
  - apply (undo_resubmits_inverse_or_refuses
             (Sample.with_history [Sample.entry Sample.open_chrome Sample.succeeded])
             0 5 [] [] (Sample.entry Sample.open_chrome Sample.succeeded));
      first [reflexivity | constructor].
  - apply (undo_resubmits_inverse_or_refuses
             (Sample.with_history [Sample.entry Sample.open_chrome Sample.succeeded;
                                   Sample.entry Sample.get_info Sample.succeeded])
             0 5 [Sample.entry Sample.open_chrome Sample.succeeded] []
             (Sample.entry Sample.get_info Sample.succeeded));
      try first [reflexivity | constructor].
    intros Hin. vm_compute in Hin.
    repeat (apply elem_of_cons in Hin as [Hin | Hin]; [discriminate Hin |]).
    apply elem_of_nil in Hin. exact Hin.
Defined.

(** ** Undo under the history lock *)

Section UndoLock.
Context `{Runtime}.
Import CommandDispatcher.

(** An undo command never asks for confirmation. *)
Lemma undo_command_unconfirmed (now : Z) (c u : CommandResult) :
  _create_undo_command now c = Some u -> requires_confirmation u = false.
Proof.
  unfold _create_undo_command. intros Hu.
  repeat match type of Hu with
         | (if ?b then _ else _) = _ => destruct b
         end; inversion Hu; reflexivity.
Qed.

(** Recording while the lock is held waits for ever. *)
Lemma record_blocks_when_locked (now : Z) (c : CommandResult) (r : ExecutionResult)
    (d : CommandDispatcher) :
  history_lock d = true -> _record_command now c r d = Blocked d.
Proof. intros Hl. unfold _record_command, with_history_lock. rewrite Hl. reflexivity. Qed.

(** A valid, unconfirmed command with a handler, dispatched while the
    history lock is held: the handler is invoked and the call never returns. *)
Lemma dispatch_blocks_when_locked (start_time now : Z) (u : CommandResult)
    (reason : option string) (h : Handler) (d : CommandDispatcher) :
  history_lock d = true ->
  CommandValidator.validate_command u = Ret (true, reason) ->
  lookup_handler d (intent u) = Some h ->
  requires_confirmation u = false ->
  dispatch_command start_time now u d = Blocked (log_invocation u d).
Proof.
  intros Hl Hv Hh Hc. unfold dispatch_command, try_except.
  unfold bind at 1, lift. rewrite Hv. cbn [negb].
  unfold bind at 1, get. rewrite Hh, Hc.
  unfold bind at 1. unfold _execute_with_timeout, bind at 1, modify.
  assert (Hl' : history_lock (log_invocation u d) = true) by exact Hl.
  destruct (h u) as [[r | v] | e | |]; unfold ret, block, bind;
    rewrite ?record_blocks_when_locked by exact Hl'; reflexivity.
Qed.

(** C7. [undo_last_command] takes the history lock and calls
    [dispatch_command] while holding it.  When the most recent successful
    entry has a whitelisted intent and the inverse command passes validation
    and has a handler, the handler is invoked and the call then waits for
    ever: [_record_command] asks for the lock its own thread holds (or the
    handler never ends). *)
Theorem undo_deadlocks_on_history_lock (d : CommandDispatcher) (start_time now : Z)
    (older newer : list CommandHistory) (e : CommandHistory) (u : CommandResult)
    (reason : option string) (h : Handler) :
  history_lock d = false ->
  command_history d = older ++ e :: newer ->
  Forall failed newer ->
  success (result e) = true ->
  intent (command e) ∈ ["open_app"; "close_app"; "play_music"] ->
  _create_undo_command now (command e) = Some u ->
  CommandValidator.validate_command u = Ret (true, reason) ->
  lookup_handler d (intent u) = Some h ->
  exists d',
    undo_last_command start_time now d = Blocked d'
    /\ invocations d' = invocations d ++ [u]
    /\ history_lock d' = true.
Proof.
  intros Hfree Hhist Hnewer Hok Hintent Hu Hv Hh.
  rewrite (undo_body start_time now d older newer e Hhist Hnewer).
  unfold with_history_lock. rewrite Hfree.
  cbn [undo_scan]. rewrite Hok, (bool_decide_eq_true_2 _ Hintent), Hu.
  rewrite (dispatch_blocks_when_locked start_time now u reason h (set_lock true d));
    [| reflexivity | exact Hv | exact Hh | exact (undo_command_unconfirmed now _ u Hu)].
  eexists. split; [reflexivity |]. split; reflexivity.
Qed.

End UndoLock.

Lemma undo_deadlocks_on_history_lock_witness :
  exists d',
    CommandDispatcher.undo_last_command 0 5
      (Sample.with_history [Sample.entry Sample.open_chrome Sample.succeeded])
    = CommandDispatcher.Blocked d'
    /\ invocations d'
       = invocations (Sample.with_history [Sample.entry Sample.open_chrome Sample.succeeded])
         ++ [ {| intent := "close_app";
                 entities := {[ "app_name" := VStr "Chrome" ]};
                 confidence := 0.7%float;
                 requires_confirmation := false;
                 raw_text := "Close Chrome";
                 processing_method := "fallback";
                 timestamp := 5 |} ]
    /\ history_lock d' = true.
Proof.
  apply (undo_deadlocks_on_history_lock
           (Sample.with_history [Sample.entry Sample.open_chrome Sample.succeeded])
           0 5 [] [] (Sample.entry Sample.open_chrome Sample.succeeded) _ None Sample.done).
  - reflexivity.
  - reflexivity.
  - constructor.
  - reflexivity.
  - apply elem_of_cons. left. reflexivity.
  - reflexivity.
  - vm_compute. reflexivity.
  - vm_compute. reflexivity.
Defined.

(** ** Strings: stripping twice *)

Section Strip.

Lemma to_list_of_list (l : list ascii) : Str.to_list (Str.of_list l) = l.
Proof. apply String.list_ascii_of_string_of_list_ascii. Qed.

Lemma of_list_to_list (s : string) : Str.of_list (Str.to_list s) = s.
Proof. apply String.string_of_list_ascii_of_string. Qed.

Lemma rev_rev (s : string) : Str.rev (Str.rev s) = s.
Proof.
  unfold Str.rev. rewrite to_list_of_list, List.rev_involutive. apply of_list_to_list.
Qed.

Lemma lstrip_idempotent (s : string) : Str.lstrip (Str.lstrip s) = Str.lstrip s.
Proof.
  induction s as [| c s IH]; [reflexivity |].
  cbn. destruct (Str.isspace c) eqn:Hc; [exact IH |]. cbn. rewrite Hc. reflexivity.
Qed.

(** What [lstrip] leaves is a suffix. *)
Lemma lstrip_suffix (s : string) :
  exists p, Str.to_list s = p ++ Str.to_list (Str.lstrip s).
Proof.
  induction s as [| c s [p IH]]; [exists []; reflexivity |].
  cbn. destruct (Str.isspace c).
  - exists (c :: p). cbn. f_equal. exact IH.
  - exists []. reflexivity.
Qed.

(** A string that starts with no space keeps its start when stripped on the
    right, so stripping it on the left changes nothing. *)
Lemma lstrip_rstrip_fixed (s : string) :
  Str.lstrip s = s -> Str.lstrip (Str.rstrip s) = Str.rstrip s.
Proof.
  intros Hs. unfold Str.rstrip.
  destruct (lstrip_suffix (Str.rev s)) as [p Hp].
  set (v := Str.lstrip (Str.rev s)) in *.
  assert (Hprefix : Str.to_list s = Str.to_list (Str.rev v) ++ List.rev p).
  { unfold Str.rev at 1. rewrite to_list_of_list, <- List.rev_app_distr, <- Hp.
    unfold Str.rev. rewrite to_list_of_list, List.rev_involutive. reflexivity. }
  destruct (Str.rev v) as [| c t] eqn:Hv; [reflexivity |].
  cbn in Hprefix. rewrite <- (of_list_to_list s), Hprefix in Hs. cbn in Hs.
  cbn. destruct (Str.isspace c); [| reflexivity].
  exfalso.
  assert (Hlen : (String.length (Str.lstrip (Str.of_list (Str.to_list t ++ List.rev p)))
                  <= String.length (Str.of_list (Str.to_list t ++ List.rev p)))%nat).
  { generalize (Str.of_list (Str.to_list t ++ List.rev p)). intros w.
    induction w as [| a w IH]; cbn; [lia |]. destruct (Str.isspace a); cbn; lia. }
  unfold Str.of_list, Str.to_list in Hlen. rewrite Hs in Hlen. cbn in Hlen. lia.
Qed.

Lemma rstrip_idempotent (s : string) : Str.rstrip (Str.rstrip s) = Str.rstrip s.
Proof. unfold Str.rstrip. rewrite rev_rev, lstrip_idempotent. reflexivity. Qed.

Lemma strip_idempotent (s : string) : Str.strip (Str.strip s) = Str.strip s.
Proof.
  unfold Str.strip.
  rewrite (lstrip_rstrip_fixed (Str.lstrip s) (lstrip_idempotent s)).
  apply rstrip_idempotent.
Qed.

Lemma strip_truthy (s : string) : Str.truthy (Str.strip s) = true -> Str.truthy s = true.
Proof. destruct s; [discriminate | reflexivity]. Qed.

End Strip.

(** ** Resolver: the response cache *)

Section Cache.
Context `{Runtime}.
Import NLPProcessor.

(** C9. With response caching on (the resolver consults the cache only
    then), a lookup that finds an entry whose age has reached its TTL returns
    nothing, and the entry is gone from the cache when the lookup ends. *)
Theorem expired_entry_not_returned_and_purged (now : Z) (text : string)
    (s : NLPProcessor) (cached : CachedResponse) (ttl : Z) :
  cache_responses (config s) = true ->
  cache s !! _get_cache_key text = Some cached ->
  timedelta_hours (ttl_hours cached) = Ret ttl ->
  ttl <= now - created_at cached ->
  exists s',
    _get_cached_response now text s = (Ret None, s')
    /\ cache s' !! _get_cache_key text = None.
Proof.
  intros Hon Hcached Httl Hage. unfold _get_cached_response.
  rewrite Hon, Hcached, Httl. cbn [negb].
  destruct (Z.ltb_spec (now - created_at cached) ttl) as [Hlt | _]; [lia |].
  eexists. split; [reflexivity |]. cbn. apply lookup_delete_eq.
Qed.

(** A lookup within the TTL returns the stored command and changes nothing. *)
Lemma fresh_entry_returned (now : Z) (text : string) (s : NLPProcessor)
    (cached : CachedResponse) (ttl : Z) :
  cache_responses (config s) = true ->
  cache s !! _get_cache_key text = Some cached ->
  timedelta_hours (ttl_hours cached) = Ret ttl ->
  now - created_at cached < ttl ->
  _get_cached_response now text s = (Ret (Some (response cached)), s).
Proof.
  intros Hon Hcached Httl Hage. unfold _get_cached_response.
  rewrite Hon, Hcached, Httl. cbn [negb].
  destruct (Z.ltb_spec (now - created_at cached) ttl) as [_ | Hge]; [reflexivity | lia].
Qed.

(** With response caching off the method returns at its first line: nothing
    is looked up.  The resolver does not call it in that case. *)
Lemma lookup_skipped_when_caching_off (now : Z) (text : string) (s : NLPProcessor) :
  cache_responses (config s) = false ->
  _get_cached_response now text s = (Ret None, s).
Proof. intros Hoff. unfold _get_cached_response. rewrite Hoff. reflexivity. Qed.

(** A lookup never calls the service, and never changes the configuration. *)
Lemma lookup_keeps_settings (now : Z) (text : string) (s : NLPProcessor) :
  let s' := snd (_get_cached_response now text s) in
  config s' = config s /\ openai_client s' = openai_client s
  /\ remote_calls s' = remote_calls s.
Proof.
  unfold _get_cached_response.
  destruct (cache_responses (config s)); cbn [negb]; [| auto].
  destruct (cache s !! _get_cache_key text) as [cached |]; [| auto].
  destruct (timedelta_hours (ttl_hours cached)) as [ttl | e]; [| auto].
  destruct (now - created_at cached <? ttl); cbn; auto.
Qed.

(** The service replies: the command built from the reply is returned and,
    with caching on, stored under the key of the text. *)
Lemma call_remote_replied (remote : completion) (now : Z) (text : string)
    (s : NLPProcessor) (parsed : Reply) :
  remote text = Some parsed ->
  cache_responses (config s) = true ->
  exists result,
    call_remote remote now text s
    = (Ret (Some result),
       set_cache (insert (_get_cache_key text)
                    {| key := _get_cache_key text; response := result;
                       created_at := now; ttl_hours := cache_ttl_hours (config s) |})
         (log_remote_call text s))
    /\ processing_method result = "openai".
Proof.
  intros Hreply Hon. unfold call_remote. rewrite Hreply. cbn [config log_remote_call].
  rewrite Hon. unfold _cache_response. cbn [config log_remote_call]. rewrite Hon.
  cbn [negb]. eexists. split; reflexivity.
Qed.

Lemma log_grows_not (l : list string) (x : string) : l <> l ++ [x].
Proof.
  intros Heq. apply (f_equal length) in Heq. rewrite length_app in Heq. cbn in Heq. lia.
Qed.

End Cache.

Lemma expired_entry_not_returned_and_purged_witness :
  exists s',
    NLPProcessor._get_cached_response (2 * Sample.one_hour) "what time is it"
      (snd (NLPProcessor.process_command Sample.remote 0 "what time is it" Sample.resolver))
    = (Ret None, s')
    /\ cache s' !! NLPProcessor._get_cache_key "what time is it" = None.
Proof.
  eapply (expired_entry_not_returned_and_purged (2 * Sample.one_hour) "what time is it"
            (snd (NLPProcessor.process_command Sample.remote 0 "what time is it"
                    Sample.resolver))
            _ Sample.one_hour).
  - reflexivity.
  - vm_compute. reflexivity.
  - reflexivity.
  - vm_compute. discriminate.
Defined.

(** ** Resolver: resolving the same utterance twice *)

Section ResolveTwice.
Context `{Runtime}.
Import NLPProcessor.

(** A resolution that finds a fresh entry returns the stored command and
    calls nothing. *)
Lemma resolve_cache_hit (remote : completion) (now : Z) (text : string)
    (s : NLPProcessor) (cached : CachedResponse) (ttl : Z) :
  use_openai (config s) = true ->
  openai_client s = true ->
  cache_responses (config s) = true ->
  negb (Str.truthy text) || negb (Str.truthy (Str.strip text)) = false ->
  cache s !! _get_cache_key (Str.strip text) = Some cached ->
  timedelta_hours (ttl_hours cached) = Ret ttl ->
  now - created_at cached < ttl ->
  process_command remote now text s
  = (Ret (response cached), incr_requests_made (incr_cache_hits s)).
Proof.
  intros Huse Hclient Hon Hblank Hcached Httl Hage.
  unfold process_command, _process_with_openai.
  rewrite Hblank, Huse, Hclient, Hon. cbn [andb].
  rewrite (fresh_entry_returned now (Str.strip text) s cached ttl Hon Hcached Httl Hage).
  reflexivity.
Qed.

(** C3, as the code has it.  With the remote path and the cache on, let a
    first resolution of [U] call the service and get a reply, and let a
    second resolution of [U] start less than the TTL after it.  Then the
    second resolution returns the very command of the first, whose
    [processing_method] is still "openai", calls the service no second time,
    and counts one cache hit. *)
Theorem second_resolution_served_from_cache (remote1 remote2 : completion)
    (t1 t2 : Z) (U : string) (s0 s1 : NLPProcessor) (r1 : CommandResult)
    (parsed : Reply) (ttl : Z) :
  use_openai (config s0) = true ->
  openai_client s0 = true ->
  cache_responses (config s0) = true ->
  process_command remote1 t1 U s0 = (Ret r1, s1) ->
  remote_calls s1 = remote_calls s0 ++ [Str.strip U] ->
  remote1 (Str.strip U) = Some parsed ->
  timedelta_hours (cache_ttl_hours (config s0)) = Ret ttl ->
  t2 - t1 < ttl ->
  exists s2,
    process_command remote2 t2 U s1 = (Ret r1, s2)
    /\ remote_calls s2 = remote_calls s1
    /\ processing_method r1 = "openai"
    /\ cache_hits s2 = cache_hits s1 + 1.
Proof.
  intros Huse Hclient Hon Hfirst Hlog Hreply Httl Hage.
  unfold process_command in Hfirst.
  destruct (negb (Str.truthy U) || negb (Str.truthy (Str.strip U))) eqn:Hblank.
  { inversion Hfirst; subst. exfalso. exact (log_grows_not _ _ Hlog). }
  rewrite Huse, Hclient in Hfirst. cbn [andb] in Hfirst.
  unfold _process_with_openai in Hfirst. rewrite Hon in Hfirst.
  pose proof (lookup_keeps_settings t1 (Str.strip U) s0) as (Hcfg & Hcli & Hcalls).
  destruct (_get_cached_response t1 (Str.strip U) s0) as [[[c |] | e] s'] eqn:Hlook;
    cbn [snd] in Hcfg, Hcli, Hcalls.
  - inversion Hfirst; subst. cbn in Hlog. rewrite Hcalls in Hlog.
    exfalso. exact (log_grows_not _ _ Hlog).
  - assert (Hon' : cache_responses (config s') = true) by (rewrite Hcfg; exact Hon).
    destruct (call_remote_replied remote1 t1 (Str.strip U) s' parsed Hreply Hon')
      as (result & Hcall & Hmethod).
    rewrite Hcall in Hfirst. inversion Hfirst; subst r1 s1. clear Hfirst.
    eexists. split.
    + eapply (resolve_cache_hit remote2 t2 U _
                {| key := _get_cache_key (Str.strip U); response := result;
                   created_at := t1; ttl_hours := cache_ttl_hours (config s') |} ttl).
      * cbn. rewrite Hcfg. exact Huse.
      * cbn. rewrite Hcli. exact Hclient.
      * cbn. exact Hon'.
      * exact Hblank.
      * cbn. apply lookup_insert_eq.
      * cbn. rewrite Hcfg. exact Httl.
      * cbn. exact Hage.
    + cbn. auto.
  - inversion Hfirst; subst. rewrite Hcalls in Hlog.
    exfalso. exact (log_grows_not _ _ Hlog).
Qed.

End ResolveTwice.

Lemma second_resolution_served_from_cache_witness :
  exists s2,
    NLPProcessor.process_command Sample.remote_down 1000 " What time is it? "
      (snd (NLPProcessor.process_command Sample.remote 0 " What time is it? " Sample.resolver))
    = (Ret {| intent := "get_time"; entities := ∅; confidence := 0.95%float;
              requires_confirmation := false; raw_text := "What time is it?";
              processing_method := "openai"; timestamp := 0 |}, s2)
    /\ remote_calls s2
       = remote_calls
           (snd (NLPProcessor.process_command Sample.remote 0 " What time is it? "
                   Sample.resolver))
    /\ processing_method
         {| intent := "get_time"; entities := ∅; confidence := 0.95%float;
            requires_confirmation := false; raw_text := "What time is it?";
            processing_method := "openai"; timestamp := 0 |} = "openai"
    /\ cache_hits s2
       = cache_hits
           (snd (NLPProcessor.process_command Sample.remote 0 " What time is it? "
                   Sample.resolver)) + 1.
Proof.
  eapply (second_resolution_served_from_cache Sample.remote Sample.remote_down 0 1000
            " What time is it? " Sample.resolver _ _ _ Sample.one_hour).
  - reflexivity.
  - reflexivity.
  - reflexivity.
  - vm_compute. reflexivity.
  - vm_compute. reflexivity.
  - reflexivity.
  - reflexivity.
  - reflexivity.
Defined.

(** C3, as the specification has it, fails on the tag: "What time is it?"
    resolved at time 0 through the service and again a millisecond later.
    The second resolution returns the command of the first and calls the
    service no second time, but the command's [processing_method] is
    "openai", not "cache". *)
Lemma cached_command_keeps_openai_tag :
  exists r s1 s2,
    NLPProcessor.process_command Sample.remote 0 "What time is it?" Sample.resolver
      = (Ret r, s1)
    /\ remote_calls s1 = ["What time is it?"]
    /\ NLPProcessor.process_command Sample.remote 1000 "What time is it?" s1 = (Ret r, s2)
    /\ remote_calls s2 = ["What time is it?"]
    /\ cache_hits s2 = 1
    /\ processing_method r = "openai"
    /\ processing_method r <> "cache".
Proof.
  eexists _, _, _.
  split; [vm_compute; reflexivity |].
  split; [reflexivity |].
  split; [vm_compute; reflexivity |].
  split; [reflexivity |].
  split; [reflexivity |].
  split; [reflexivity | discriminate].
Qed.

(** ** Offline resolver: confidence and confirmation of a match *)

Section FallbackMatch.
Context `{Runtime}.
Import FallbackProcessor.

Lemma is_sensitive_true (text : string) :
  is_sensitive text = true <->
  exists pattern, pattern ∈ sensitive_patterns /\ is_Some (re_search pattern text).
Proof.
  unfold is_sensitive. rewrite existsb_exists. split.
  - intros (p & Hin & Hp). exists p. split; [apply list_elem_of_In; exact Hin |].
    apply bool_decide_eq_true in Hp. exact Hp.
  - intros (p & Hin & Hp). exists p. split; [apply list_elem_of_In; exact Hin |].
    apply bool_decide_eq_true. exact Hp.
Qed.

(** What [process_command] does with a match: the entities are extracted,
    and unless that raises the command is built. *)
Lemma process_command_matched (now : Z) (text matched : string) (groups : groups_t) :
  match_intents intent_patterns (Str.lower (Str.strip text)) = Some (matched, groups) ->
  process_command now text =
    obind (extract_entities matched groups) (fun entities =>
      Ret {| intent := matched;
             entities := entities;
             confidence := 0.7%float;
             requires_confirmation :=
               is_sensitive (Str.lower (Str.strip text))
               || bool_decide (matched ∈ ["shutdown_system"; "restart_system"; "send_email"]);
             raw_text := Str.lower (Str.strip text);
             processing_method := "fallback";
             timestamp := now |}).
Proof. intros Hm. unfold process_command. rewrite Hm. reflexivity. Qed.

(** For a shutdown or restart match the extraction cannot raise: a command
    is returned. *)
Lemma system_match_returns (now : Z) (text matched : string) (groups : groups_t) :
  match_intents intent_patterns (Str.lower (Str.strip text)) = Some (matched, groups) ->
  matched ∈ ["shutdown_system"; "restart_system"] ->
  exists c, process_command now text = Ret c.
Proof.
  intros Hm Hin. rewrite (process_command_matched now text matched groups Hm).
  assert (Hex : extract_entities matched groups = Ret ∅).
  { apply elem_of_cons in Hin as [-> | Hin];
      [| apply elem_of_cons in Hin as [-> | Hin]; [| apply elem_of_nil in Hin; contradiction]];
      destruct groups; reflexivity. }
  rewrite Hex. eexists. reflexivity.
Qed.

(** C8. For an utterance that a fallback pattern matches, whichever pattern
    it is, the command that results has confidence 0.7 and the matched
    intent, and it has [requires_confirmation = true] whenever the lowered
    text matches one of the sensitive patterns or the matched intent is
    [shutdown_system], [restart_system] or [send_email]. *)
Theorem fallback_match_confidence_and_confirmation (now : Z) (text matched : string)
    (groups : groups_t) (c : CommandResult) :
  match_intents intent_patterns (Str.lower (Str.strip text)) = Some (matched, groups) ->
  process_command now text = Ret c ->
  confidence c = 0.7%float
  /\ intent c = matched
  /\ ((exists pattern, pattern ∈ sensitive_patterns
                       /\ is_Some (re_search pattern (Str.lower (Str.strip text))))
      \/ matched ∈ ["shutdown_system"; "restart_system"; "send_email"] ->
      requires_confirmation c = true).
Proof.
  intros Hm Hc. rewrite (process_command_matched now text matched groups Hm) in Hc.
  destruct (extract_entities matched groups) as [es | e]; [| discriminate Hc].
  cbn [obind] in Hc. inversion Hc; subst c; clear Hc.
  cbn [confidence intent requires_confirmation].
  split; [reflexivity |]. split; [reflexivity |].
  intros [Hs | Hi].
  - apply is_sensitive_true in Hs. rewrite Hs. reflexivity.
  - rewrite (bool_decide_eq_true_2 _ Hi). apply orb_true_r.
Qed.

End FallbackMatch.

Lemma fallback_match_confidence_and_confirmation_witness :
  confidence Sample.shutdown_confirmed = 0.7%float
  /\ intent Sample.shutdown_confirmed = "shutdown_system"
  /\ ((exists pattern, pattern ∈ FallbackProcessor.sensitive_patterns
                       /\ is_Some (re_search pattern
                                     (Str.lower (Str.strip "Shutdown the computer"))))
      \/ "shutdown_system" ∈ ["shutdown_system"; "restart_system"; "send_email"] ->
      requires_confirmation Sample.shutdown_confirmed = true).
Proof.
  apply (fallback_match_confidence_and_confirmation 0 "Shutdown the computer"
           "shutdown_system" []).
  - vm_compute. reflexivity.
  - vm_compute. reflexivity.
Defined.

(** ** Resolver: the worst case *)

Section WorstCase.
Context `{Runtime}.
Import NLPProcessor.

(** With no pattern matching, the offline resolver returns the generic
    query. *)
Lemma fallback_unmatched (now : Z) (text : string) :
  FallbackProcessor.match_intents FallbackProcessor.intent_patterns
    (Str.lower (Str.strip text)) = None ->
  FallbackProcessor.process_command now text
  = Ret {| intent := "general_query";
           entities := {[ "query" := VStr (Str.lower (Str.strip text)) ]};
           confidence := 0.3%float;
           requires_confirmation := false;
           raw_text := Str.lower (Str.strip text);
           processing_method := "fallback";
           timestamp := now |}.
Proof. intros Hm. unfold FallbackProcessor.process_command. rewrite Hm. reflexivity. Qed.

(** C4, as the code has it.  An empty or blank utterance resolves to the
    [error] command, of confidence 0.0, without the offline resolver being
    asked.  Any other utterance that no fallback pattern matches, when the
    remote path is off or yields no command, resolves to [general_query]
    with confidence 0.3 and [requires_confirmation = false].  In both cases
    a command is returned, nothing is raised. *)
Theorem resolve_without_match (remote : completion) (now : Z) (text : string)
    (s : NLPProcessor) :
  (Str.truthy (Str.strip text) = false ->
   process_command remote now text s = (Ret (error_command now text), s))
  /\ (Str.truthy (Str.strip text) = true ->
      FallbackProcessor.match_intents FallbackProcessor.intent_patterns
        (Str.lower (Str.strip text)) = None ->
      use_openai (config s) && openai_client s = false
      \/ (forall r, fst (_process_with_openai remote now (Str.strip text) s) <> Ret (Some r)) ->
      exists c s',
        process_command remote now text s = (Ret c, s')
        /\ intent c = "general_query"
        /\ confidence c = 0.3%float
        /\ requires_confirmation c = false).
Proof.
  split.
  - intros Hblank. unfold process_command. rewrite Hblank.
    rewrite orb_true_r. reflexivity.
  - intros Htext Hnone Hremote. unfold process_command.
    rewrite Htext, (strip_truthy text Htext). cbn [negb orb].
    assert (Hfb : FallbackProcessor.process_command now (Str.strip text)
                  = Ret {| intent := "general_query";
                           entities := {[ "query" := VStr (Str.lower (Str.strip text)) ]};
                           confidence := 0.3%float;
                           requires_confirmation := false;
                           raw_text := Str.lower (Str.strip text);
                           processing_method := "fallback";
                           timestamp := now |}).
    { rewrite <- (strip_idempotent text) at 2 3.
      apply fallback_unmatched. rewrite strip_idempotent. exact Hnone. }
    rewrite Hfb.
    destruct (use_openai (config s) && openai_client s) eqn:Hon.
    + destruct Hremote as [Hoff | Hfails]; [discriminate Hoff |].
      destruct (_process_with_openai remote now (Str.strip text) s) as [[[r |] | e] s'].
      * exfalso. exact (Hfails r eq_refl).
      * eexists _, _. split; [reflexivity |]. cbn. auto.
      * eexists _, _. split; [reflexivity |]. cbn. auto.
    + eexists _, _. split; [reflexivity |]. cbn. auto.
Qed.

End WorstCase.

Lemma resolve_without_match_witness :
  NLPProcessor.process_command Sample.remote_down 0 "   " Sample.resolver
    = (Ret (NLPProcessor.error_command 0 "   "), Sample.resolver)
  /\ exists c s',
       NLPProcessor.process_command Sample.remote_down 0 "Hello there" Sample.resolver
         = (Ret c, s')
       /\ intent c = "general_query"
       /\ confidence c = 0.3%float
       /\ requires_confirmation c = false.
Proof.
  split.
  - apply (resolve_without_match Sample.remote_down 0 "   " Sample.resolver). reflexivity.
  - apply (resolve_without_match Sample.remote_down 0 "Hello there" Sample.resolver).
    + reflexivity.
    + vm_compute. reflexivity.
    + right. intros r. vm_compute. discriminate.
Defined.

(** C4, as the specification has it, fails at the empty utterance: no
    fallback pattern matches it, yet the command returned is not the generic
    query of confidence 0.3 but [error], of confidence 0.0. *)
Lemma empty_utterance_resolves_to_error :
  FallbackProcessor.match_intents FallbackProcessor.intent_patterns
    (Str.lower (Str.strip "")) = None
  /\ exists c,
       NLPProcessor.process_command Sample.remote_down 0 "" Sample.offline_resolver
         = (Ret c, Sample.offline_resolver)
       /\ intent c = "error"
       /\ intent c <> "general_query"
       /\ confidence c = 0%float
       /\ confidence c <> 0.3%float
       /\ requires_confirmation c = false.
Proof.
  split; [vm_compute; reflexivity |].
  eexists. split; [reflexivity |]. cbn.
  split; [reflexivity |]. split; [discriminate |]. split; [reflexivity |].
  split; [| reflexivity].
  intros Heq. apply (f_equal (fun x => PrimFloat.eqb x 0.3%float)) in Heq.
  vm_compute in Heq. discriminate Heq.
Qed.

(** The offline resolver can raise.  The third pattern of [set_timer] has one
    group, of any text, while the extraction for [set_timer] converts the
    first group with [int] and reads a second one: with the remote path off,
    "count to ten" raises [ValueError] and "count 5" raises [IndexError] out
    of [process_command]. *)
Lemma countdown_utterance_raises :
  NLPProcessor.process_command Sample.remote_down 0 "count to ten" Sample.offline_resolver
    = (Raise (ValueError "invalid literal for int() with base 10: 'to ten'"),
       Sample.offline_resolver)
  /\ NLPProcessor.process_command Sample.remote_down 0 "count 5" Sample.offline_resolver
     = (Raise (IndexError "tuple index out of range"), Sample.offline_resolver).
Proof. split; vm_compute; reflexivity. Qed.

(** ** Producers and the full queue *)

Section FullQueue.
Import EventLoop.

(** [put] on a full queue that stays full: the second passes, then [Full]. *)
Lemma queue_put_full (q : list CommandQueue) (item : CommandQueue) (freed : option Z) :
  Z.of_nat (length q) = maxsize ->
  none_freed_in_time freed ->
  queue_put q item put_timeout freed = Full put_timeout.
Proof.
  intros Hlen Hlate. unfold queue_put. rewrite Hlen. cbn [Z.ltb Z.compare maxsize].
  destruct freed as [delay |]; [| reflexivity].
  cbn in Hlate. destruct (Z.leb_spec delay put_timeout) as [Hle | _]; [lia | reflexivity].
Qed.

(** [put] on a full queue from which the consumer takes an item in time. *)
Lemma queue_put_freed (q : list CommandQueue) (item : CommandQueue) (delay : Z) :
  Z.of_nat (length q) = maxsize ->
  0 <= delay <= put_timeout ->
  queue_put q item put_timeout (Some delay) = Put (tail q ++ [item]) delay.
Proof.
  intros Hlen [Hpos Hle]. unfold queue_put. rewrite Hlen. cbn [Z.ltb Z.compare maxsize].
  destruct (Z.leb_spec delay put_timeout) as [_ | Hgt]; [| lia].
  rewrite Z.max_r by exact Hpos. reflexivity.
Qed.

(** C10, as the code has it.  A producer that has recognised a command while
    the queue holds 100 items is held inside [put], whose timeout is one
    second.  When no slot is freed during that second, the wait lasts the
    whole second, then the item is dropped (the queue is as before) and
    "I'm busy right now, please try again" is spoken.  This holds for the
    hotkey producer and for the wake-word producer. *)
Theorem full_queue_waits_then_drops (s : EventLoop) (now : Z) (freed : option Z)
    (first command : string) :
  Z.of_nat (length (command_queue s)) = 100 ->
  Str.truthy command = true ->
  none_freed_in_time freed ->
  (let r := _handle_hotkey_activation (Some command) now freed s in
   command_queue (fst r) = command_queue s
   /\ spoken (fst r) = spoken s ++ [busy_feedback]
   /\ snd r = put_timeout)
  /\ (wake_word_enabled s = true ->
      processing_command s = false ->
      _is_wake_word s first = true ->
      let r := _wake_word_detection_step (Some first) (Some command) now freed s in
      command_queue (fst r) = command_queue s
      /\ spoken (fst r) = spoken s ++ ["Yes? I'm listening"; busy_feedback]
      /\ snd r = put_timeout).
Proof.
  intros Hlen Hcmd Hlate. split.
  - unfold _handle_hotkey_activation, heard, enqueue. rewrite Hcmd.
    cbn [command_queue set_hotkey_active].
    rewrite (queue_put_full _ _ freed Hlen Hlate). cbn. auto.
  - intros Hon Hidle Hwake.
    assert (Hfirst : Str.truthy first = true).
    { unfold _is_wake_word in Hwake. destruct (Str.truthy first); [reflexivity | discriminate]. }
    unfold _wake_word_detection_step, heard, enqueue.
    rewrite Hon, Hidle, Hfirst. cbn [andb negb]. rewrite Hwake, Hcmd.
    cbn [command_queue speak].
    rewrite (queue_put_full _ _ freed Hlen Hlate). cbn.
    rewrite <- app_assoc. auto.
Qed.

End FullQueue.

Lemma full_queue_waits_then_drops_witness :
  (let r := EventLoop._handle_hotkey_activation (Some "open chrome") 7 None Sample.busy_loop in
   command_queue (fst r) = command_queue Sample.busy_loop
   /\ spoken (fst r) = spoken Sample.busy_loop ++ [EventLoop.busy_feedback]
   /\ snd r = EventLoop.put_timeout)
  /\ (let r := EventLoop._wake_word_detection_step (Some "hey jarvis") (Some "open chrome")
                 7 None Sample.busy_loop in
      command_queue (fst r) = command_queue Sample.busy_loop
      /\ spoken (fst r)
         = spoken Sample.busy_loop ++ ["Yes? I'm listening"; EventLoop.busy_feedback]
      /\ snd r = EventLoop.put_timeout).
Proof.
  destruct (full_queue_waits_then_drops Sample.busy_loop 7 None "hey jarvis" "open chrome"
              eq_refl eq_refl I) as [Hhotkey Hwake].
  split; [exact Hhotkey |].
  apply Hwake; reflexivity.
Defined.

(** C10, as the specification has it, fails: with 100 items queued and the
    consumer idle, the hotkey producer is held inside [put] for a full second
    before the item is dropped; and when the consumer takes an item 0.2 s
    into the wait, the command is not rejected but queued last, with no
    "busy" feedback. *)
Lemma full_queue_put_blocks_for_a_second :
  Z.of_nat (length (command_queue Sample.busy_loop)) = 100
  /\ (let r := EventLoop._handle_hotkey_activation (Some "open chrome") 7 None
                 Sample.busy_loop in
      snd r = 1000000 /\ snd r <> 0
      /\ spoken (fst r) = [EventLoop.busy_feedback])
  /\ (let r := EventLoop._handle_hotkey_activation (Some "open chrome") 7 (Some 200000)
                 Sample.busy_loop in
      snd r = 200000
      /\ spoken (fst r) = []
      /\ last (command_queue (fst r))
         = Some {| queued_text := "open chrome"; queued_at := 7; source := "hotkey" |}
      /\ Z.of_nat (length (command_queue (fst r))) = 100).
Proof.
  split; [reflexivity |].
  split; cbv zeta.
  - split; [reflexivity |]. split; [discriminate | reflexivity].
  - split; [reflexivity |]. split; [reflexivity |]. split; vm_compute; reflexivity.
Qed.

(** * Further properties of the dispatcher *)

Section DispatchPaths.
Context `{Runtime}.
Import CommandDispatcher.



(** Recording with the lock free: the entry goes last, and when the list is
    then longer than [max_history_size] its last [max_history_size] entries
    are kept. *)
Lemma record_when_free (now : Z) (c : CommandResult) (r : ExecutionResult)
    (d : CommandDispatcher) :
  history_lock d = false ->
  _record_command now c r d
  = Returned tt
      (set_history
         (fun h =>
            let h' := h ++ [{| command := c; result := r; entry_timestamp := now |}] in
            if max_history_size d <? Z.of_nat (length h')
            then slice_from (- max_history_size d) h' else h') d).
Proof.
  intros Hfree. unfold _record_command, with_history_lock. rewrite Hfree.
  unfold bind, get, modify. destruct d. cbn in *. subst. reflexivity.
Qed.

(** [l[-m:]] for a positive [m]: the last [m] elements, all of them when
    there are fewer. *)
Lemma slice_last {A} (m : Z) (l : list A) :
  0 < m ->
  slice_from (- m) l = drop (length l - Z.to_nat m) l.
Proof.
  intros Hm. unfold slice_from.
  destruct (Z.ltb_spec (- m) 0) as [_ | Hge]; [| lia].
  f_equal. lia.
Qed.

(** The list that [_record_command] leaves. *)
Lemma recorded_history (m : Z) (h : list CommandHistory) (entry : CommandHistory) :
  0 < m ->
  Z.of_nat (length h) <= m ->
  (if m <? Z.of_nat (length (h ++ [entry])) then slice_from (- m) (h ++ [entry])
   else h ++ [entry])
  = (if Z.of_nat (length h) =? m then drop 1 h else h) ++ [entry].
Proof.
  intros Hm Hlen. rewrite length_app. cbn [length].
  destruct (Z.ltb_spec m (Z.of_nat (length h + 1))) as [Hover | Hroom].
  - assert (Hfull : Z.of_nat (length h) = m) by lia.
    rewrite (proj2 (Z.eqb_eq _ _) Hfull), slice_last by exact Hm.
    rewrite length_app. cbn [length].
    replace (length h + 1 - Z.to_nat m)%nat with 1%nat by lia.
    destruct h as [| x h]; [cbn in Hfull; lia | reflexivity].
  - destruct (Z.eqb_spec (Z.of_nat (length h)) m) as [Hfull | _]; [lia | reflexivity].
Qed.


(** When [validate_command] raises (an entity of the wrong type), the
    exception ends in a failed result that carries its text;
    [commands_failed] grows by one and nothing else changes: no handler is
    looked up or invoked, nothing is recorded. *)
Theorem validator_exception_absorbed (d : CommandDispatcher) (start_time now : Z)
    (c : CommandResult) (e : exn) :
  CommandValidator.validate_command c = Raise e ->
  dispatch_command start_time now c d
  = Returned {| success := false;
                message := "Error executing command: " +:+ exn_str e;
                data := None;
                error := Some (exn_str e);
                execution_time := now - start_time;
                result_timestamp := now |}
             (set_counters id Z.succ id d).
Proof.
  intros Hv. unfold dispatch_command, try_except, bind, lift. rewrite Hv. reflexivity.
Qed.

(** [commands_failed] counts nothing but exceptions of the validator:
    whenever [validate_command] gives a verdict, the counter is after the
    dispatch what it was before, be the command rejected, without handler,
    gated, timed out or failed in its handler. *)
Theorem commands_failed_only_counts_exceptions (d d' : CommandDispatcher)
    (start_time now : Z) (c : CommandResult) (v : CommandValidator.verdict)
    (r : ExecutionResult) :
  CommandValidator.validate_command c = Ret v ->
  dispatch_command start_time now c d = Returned r d' ->
  commands_failed d' = commands_failed d.
Proof.
  intros Hv. unfold dispatch_command, try_except.
  unfold bind at 1, lift. rewrite Hv. destruct v as [[] reason]; cbn [negb].
  - unfold bind at 1, get. destruct (lookup_handler d (intent c)) as [h |].
    + destruct (requires_confirmation c).
      * unfold ret. intros Hr. inversion Hr. reflexivity.
      * unfold bind at 1, _execute_with_timeout, bind at 1, modify.
        unfold _record_command, with_history_lock, bind, get, modify, ret, block.
        destruct (h c) as [[r0 | v0] | e | |];
          cbn [history_lock log_invocation update];
          destruct (history_lock d); intros Hr; inversion Hr; reflexivity.
    + unfold ret. intros Hr. inversion Hr. reflexivity.
  - unfold ret. intros Hr. inversion Hr. reflexivity.
Qed.

(** The history never grows past [max_history_size]: if it is within the
    bound before a dispatch, it is within it after, however the dispatch
    ends. *)
Theorem dispatch_keeps_history_bound (d : CommandDispatcher) (start_time now : Z)
    (c : CommandResult) :
  0 < max_history_size d ->
  Z.of_nat (length (command_history d)) <= max_history_size d ->
  match dispatch_command start_time now c d with
  | Returned _ d' | Raised _ d' | Blocked d' =>
      max_history_size d' = max_history_size d
      /\ Z.of_nat (length (command_history d')) <= max_history_size d
  end.
Proof.
  intros Hmax Hlen. unfold dispatch_command, try_except.
  unfold bind at 1, lift.
  destruct (CommandValidator.validate_command c) as [[[] reason] | e]; cbn [negb].
  - unfold bind at 1, get. destruct (lookup_handler d (intent c)) as [h |].
    + destruct (requires_confirmation c); [unfold ret; auto |].
      unfold bind at 1, _execute_with_timeout, bind at 1, modify.
      destruct (history_lock d) eqn:Hlock.
      * assert (Hlock' : history_lock (log_invocation c d) = true) by exact Hlock.
        destruct (h c) as [[r0 | v0] | e | |]; unfold ret, block, bind;
          rewrite ?record_blocks_when_locked by exact Hlock'; cbn; auto.
      * assert (Hlock' : history_lock (log_invocation c d) = false) by exact Hlock.
        destruct (h c) as [[r0 | v0] | e | |]; unfold ret, block, bind;
          rewrite ?record_when_free by exact Hlock'; unfold modify;
          cbn [command_history max_history_size log_invocation set_history update
               set_counters];
          try (split; [reflexivity | exact Hlen]);
          (split; [reflexivity |]);
          rewrite (recorded_history (max_history_size d) (command_history d) _ Hmax Hlen);
          rewrite length_app; cbn [length];
          destruct (Z.eqb_spec (Z.of_nat (length (command_history d))) (max_history_size d));
          rewrite ?length_drop; lia.
    + unfold ret. auto.
  - unfold ret. auto.
  - unfold bind, modify, ret. cbn. auto.
Qed.

End DispatchPaths.

Section Registry.
Context `{Runtime}.
Import CommandDispatcher.

(** Only the intents of the dict of [get_command_handlers] have a handler. *)
Lemma handler_only_if_registered (d : CommandDispatcher) (i : string) :
  is_Some (lookup_handler d i) -> i ∈ registered_intents.
Proof.
  intros Hsome. destruct (decide (i ∈ registered_intents)) as [Hin | Hout]; [exact Hin |].
  exfalso. unfold lookup_handler, get_command_handlers in Hsome.
  rewrite not_elem_of_list_to_map_1 in Hsome by exact Hout.
  destruct Hsome as [h Hh]. discriminate Hh.
Qed.

(** A command that passes validation but whose intent is not one of the 21
    registered ones (the resolver's own [error] and [unknown], or an intent
    the remote service made up) ends as "No handler available", with the
    dispatcher as it was; this is so whatever components the dispatcher
    has. *)
Theorem unregistered_intent_has_no_handler (d : CommandDispatcher) (start_time now : Z)
    (c : CommandResult) (reason : option string) :
  intent c ∉ registered_intents ->
  CommandValidator.validate_command c = Ret (true, reason) ->
  dispatch_command start_time now c d
  = Returned {| success := false;
                message := "No handler available for command: " +:+ intent c;
                data := None;
                error := Some ("Unknown command intent: " +:+ intent c);
                execution_time := now - start_time;
                result_timestamp := now |} d.
Proof.
  intros Hout Hv.
  assert (Hnone : lookup_handler d (intent c) = None).
  { destruct (lookup_handler d (intent c)) as [h |] eqn:Hh; [| reflexivity].
    exfalso. apply Hout. apply (handler_only_if_registered d). rewrite Hh. eauto. }
  unfold dispatch_command, try_except, bind, lift, get. rewrite Hv. cbn [negb].
  rewrite Hnone. reflexivity.
Qed.

(** With all six components in place every registered intent has a
    handler. *)
Theorem registered_intent_has_handler (d : CommandDispatcher) (i : string) :
  is_Some (system_control d) -> is_Some (web_automation d) ->
  is_Some (information_provider d) -> is_Some (communication_handler d) ->
  is_Some (entertainment_controller d) -> is_Some (personal_assistant d) ->
  i ∈ registered_intents ->
  is_Some (lookup_handler d i).
Proof.
  intros [sc Hsc] [wa Hwa] [ip Hip] [ch Hch] [ec Hec] [pa Hpa] Hin.
  unfold lookup_handler, get_command_handlers.
  rewrite Hsc, Hwa, Hip, Hch, Hec, Hpa.
  unfold registered_intents in Hin.
  repeat (apply elem_of_cons in Hin as [-> | Hin]; [vm_compute; eauto |]).
  apply elem_of_nil in Hin. contradiction.
Qed.

End Registry.

(** * Further properties of the validator *)

Section ValidatorPolicies.
Import CommandValidator.

(** A timer whose value is an [int] [n] and whose unit is a string is valid
    exactly when [n] is positive and at most 1440 for a unit that mentions
    "minute", at most 24 for one that mentions "hour" (and not "minute");
    for any other unit, seconds or days, there is no upper bound. *)
Theorem timer_valid_iff (c : CommandResult) (n : Z) (unit : string) :
  PrimFloat.ltb (confidence c) 0.3%float = false ->
  intent c = "set_timer" ->
  entities c !! "time_value" = Some (VInt n) ->
  entities c !! "time_unit" = Some (VStr unit) ->
  validate_command c = Ret (true, None)
  <-> 0 < n
      /\ (if Str.contains "minute" (Str.lower unit) then n <= 1440
          else if Str.contains "hour" (Str.lower unit) then n <= 24
          else True).
Proof.
  intros Hconf Hintent Hvalue Hunit.
  unfold validate_command. rewrite Hconf, Hintent. cbn -[_validate_timer_command].
  unfold _validate_timer_command, dict_get. rewrite Hvalue, Hunit.
  cbn [truthy is_number num_le0 num_gt value_lower obind negb orb].
  destruct (Z.eqb_spec n 0) as [-> | Hnz]; cbn [negb].
  { split; [discriminate | lia]. }
  destruct (Z.leb_spec n 0) as [Hneg | Hpos].
  { split; [discriminate | lia]. }
  destruct (Str.contains "minute" (Str.lower unit)).
  { destruct (Z.gtb_spec n 1440); split; try discriminate; try lia; auto. }
  destruct (Str.contains "hour" (Str.lower unit)).
  { destruct (Z.gtb_spec n 24); split; try discriminate; try lia; auto. }
  split; auto.
Qed.

(** Opening an application whose name, stripped and lowered, is one of
    regedit, cmd, powershell, terminal, taskmgr is refused, in any case of
    letters and with any blanks around the name; closing it is allowed. *)
Theorem dangerous_app_refused_to_open_not_to_close (c_open c_close : CommandResult)
    (name : string) :
  PrimFloat.ltb (confidence c_open) 0.3%float = false ->
  PrimFloat.ltb (confidence c_close) 0.3%float = false ->
  intent c_open = "open_app" ->
  intent c_close = "close_app" ->
  entities c_open !! "app_name" = Some (VStr name) ->
  entities c_close !! "app_name" = Some (VStr name) ->
  Str.lower (Str.strip name) ∈ ["regedit"; "cmd"; "powershell"; "terminal"; "taskmgr"] ->
  validate_command c_open
    = Ret (false, Some ("Cannot open " +:+ Str.strip name +:+ " for security reasons"))
  /\ validate_command c_close = Ret (true, None).
Proof.
  intros Hco Hcc Hio Hic Heo Hec Hin.
  assert (Hname : Str.truthy (Str.strip name) = true).
  { destruct (Str.strip name); [| reflexivity].
    exfalso. cbn in Hin.
    repeat (apply elem_of_cons in Hin as [Hin | Hin]; [discriminate Hin |]).
    apply elem_of_nil in Hin. exact Hin. }
  split.
  - unfold validate_command. rewrite Hco, Hio. cbn -[_validate_open_app].
    unfold _validate_open_app, dict_get. rewrite Heo. cbn [value_strip obind].
    rewrite Hname. cbn [negb].
    rewrite bool_decide_eq_true_2; [reflexivity | exact Hin].
  - unfold validate_command. rewrite Hcc, Hic. cbn -[_validate_close_app].
    unfold _validate_close_app, dict_get. rewrite Hec. cbn [value_strip obind].
    rewrite Hname. reflexivity.
Qed.

End ValidatorPolicies.

(** * Further properties of the history and of undo *)

Section HistoryAccess.
Context `{Runtime}.
Import CommandDispatcher.

Lemma with_lock_returns {A} (body : M A) (a : A) (d : CommandDispatcher) :
  history_lock d = false ->
  body (set_lock true d) = Returned a (set_lock true d) ->
  with_history_lock body d = Returned a d.
Proof.
  intros Hfree Hbody. unfold with_history_lock. rewrite Hfree, Hbody.
  rewrite (set_lock_release d Hfree). reflexivity.
Qed.

(** [get_command_history(limit)] with the lock free leaves the dispatcher
    as it is and returns: for a positive [limit] the newest [limit] entries
    (all of them when there are fewer), in their order; for [limit = 0] the
    whole history; for a negative [limit] not the newest entries but the
    history without its first [-limit] entries. *)
Theorem get_command_history_slices (d : CommandDispatcher) (limit : Z) :
  history_lock d = false ->
  exists entries,
    get_command_history limit d = Returned entries d
    /\ (0 < limit ->
        entries = drop (length (command_history d) - Z.to_nat limit) (command_history d)
        /\ length entries = min (length (command_history d)) (Z.to_nat limit))
    /\ (limit = 0 -> entries = command_history d)
    /\ (limit < 0 -> entries = drop (Z.to_nat (- limit)) (command_history d)).
Proof.
  intros Hfree. eexists. split.
  - unfold get_command_history. apply (with_lock_returns _ _ d Hfree). reflexivity.
  - cbn [command_history set_lock update]. unfold id. split; [| split].
    + intros Hpos. destruct (Z.eqb_spec limit 0) as [-> | _]; [lia |]. cbn [negb].
      rewrite slice_last by exact Hpos. split; [reflexivity |].
      rewrite length_drop. lia.
    + intros ->. reflexivity.
    + intros Hneg. destruct (Z.eqb_spec limit 0) as [-> | _]; [lia |]. cbn [negb].
      unfold slice_from. destruct (Z.ltb_spec (- limit) 0) as [Hlt | _]; [lia | reflexivity].
Qed.

(** After [clear_history] the history is empty and nothing can be undone. *)
Theorem clear_history_then_undo (d : CommandDispatcher) (start_time now : Z) :
  history_lock d = false ->
  clear_history d = Returned tt (set_history (fun _ => []) d)
  /\ undo_last_command start_time now (set_history (fun _ => []) d)
     = Returned (plain_failure now "No commands to undo") (set_history (fun _ => []) d).
Proof.
  intros Hfree. split.
  - unfold clear_history, with_history_lock, modify. rewrite Hfree.
    destruct d. cbn in *. subst. reflexivity.
  - apply with_lock_returns; [exact Hfree | reflexivity].
Qed.

(** A history in which no dispatch succeeded offers nothing to undo: the
    answer is "No commands to undo" for the empty history and "No successful
    commands to undo" otherwise, and the dispatcher is as before. *)
Theorem undo_without_success (d : CommandDispatcher) (start_time now : Z) :
  history_lock d = false ->
  Forall failed (command_history d) ->
  undo_last_command start_time now d
  = Returned (plain_failure now (if bool_decide (command_history d = [])
                                 then "No commands to undo"
                                 else "No successful commands to undo")) d.
Proof.
  intros Hfree Hfailed. unfold undo_last_command.
  apply with_lock_returns; [exact Hfree |].
  unfold bind, get. change (command_history (set_lock true d)) with (command_history d).
  destruct (command_history d) as [| entry h] eqn:Hh.
  { rewrite bool_decide_eq_true_2 by reflexivity. reflexivity. }
  rewrite bool_decide_eq_false_2 by discriminate.
  rewrite <- (app_nil_r (reverse (entry :: h))).
  rewrite undo_scan_skips_failed; [reflexivity |].
  apply Forall_reverse. exact Hfailed.
Qed.

(** The inverse command is validated like any other: when the validator
    rejects it, [undo_last_command] returns the rejection, releases the lock
    and leaves the dispatcher as it was; no handler is invoked. *)
Theorem undo_rejected_by_validator (d : CommandDispatcher) (start_time now : Z)
    (older newer : list CommandHistory) (e : CommandHistory) (u : CommandResult)
    (reason : option string) :
  history_lock d = false ->
  command_history d = older ++ e :: newer ->
  Forall failed newer ->
  success (result e) = true ->
  intent (command e) ∈ ["open_app"; "close_app"; "play_music"] ->
  _create_undo_command now (command e) = Some u ->
  CommandValidator.validate_command u = Ret (false, reason) ->
  undo_last_command start_time now d
  = Returned {| success := false;
                message := "Command validation failed: " +:+ optional_str reason;
                data := None;
                error := reason;
                execution_time := now - start_time;
                result_timestamp := now |} d.
Proof.
  intros Hfree Hhist Hnewer Hok Hintent Hu Hv.
  rewrite (undo_body start_time now d older newer e Hhist Hnewer).
  apply with_lock_returns; [exact Hfree |].
  cbn [undo_scan]. rewrite Hok, (bool_decide_eq_true_2 _ Hintent), Hu.
  apply dispatch_rejected. exact Hv.
Qed.

(** Undoing an undo: the inverse of the inverse of an [open_app] or
    [close_app] command has the intent, the entities and the confidence of
    the command, and asks for no confirmation even if the command did.  The
    inverse of [play_music] is [pause_resume_music], which has no inverse. *)
Theorem undo_command_inverse (now now' : Z) (c : CommandResult) :
  (intent c = "open_app" \/ intent c = "close_app" ->
   exists u u',
     _create_undo_command now c = Some u
     /\ _create_undo_command now' u = Some u'
     /\ intent u' = intent c
     /\ entities u' = entities c
     /\ confidence u' = confidence c
     /\ requires_confirmation u' = false)
  /\ (intent c = "play_music" ->
      exists u,
        _create_undo_command now c = Some u
        /\ intent u = "pause_resume_music"
        /\ entities u = ∅
        /\ _create_undo_command now' u = None).
Proof.
  split.
  - intros [Hi | Hi]; unfold _create_undo_command; rewrite Hi; cbn;
      eexists _, _; repeat split.
  - intros Hi. unfold _create_undo_command. rewrite Hi. cbn.
    eexists. repeat split.
Qed.

End HistoryAccess.

(** * Further properties of the resolver *)

Section CacheRoundTrip.
Context `{Runtime}.
Import NLPProcessor.

(** Store, then look up.  With caching on, a response stored for a text is
    returned by a lookup, less than the configured TTL later, for that text
    and for any text that differs from it only in the case of its letters;
    the lookup changes nothing. *)
Theorem cached_response_found_ignoring_case (t1 t2 : Z) (text text' : string)
    (r : CommandResult) (s : NLPProcessor) (ttl : Z) :
  cache_responses (config s) = true ->
  timedelta_hours (cache_ttl_hours (config s)) = Ret ttl ->
  Str.lower text' = Str.lower text ->
  t2 - t1 < ttl ->
  _get_cached_response t2 text' (_cache_response t1 text r s)
  = (Ret (Some r), _cache_response t1 text r s).
Proof.
  intros Hon Httl Hcase Hage.
  assert (Hkey : _get_cache_key text' = _get_cache_key text)
    by (unfold _get_cache_key; rewrite Hcase; reflexivity).
  unfold _cache_response. rewrite Hon. cbn [negb].
  eapply (fresh_entry_returned t2 text' _
            {| key := _get_cache_key text; response := r; created_at := t1;
               ttl_hours := cache_ttl_hours (config s) |} ttl).
  - exact Hon.
  - rewrite Hkey. cbn. apply lookup_insert_eq.
  - exact Httl.
  - exact Hage.
Qed.

(** With caching off nothing is stored. *)
Lemma nothing_cached_when_off (now : Z) (text : string) (r : CommandResult)
    (s : NLPProcessor) :
  cache_responses (config s) = false -> _cache_response now text r s = s.
Proof. intros Hoff. unfold _cache_response. rewrite Hoff. reflexivity. Qed.

End CacheRoundTrip.

Section ResolverBookkeeping.
Context `{Runtime}.
Import NLPProcessor.

Lemma call_remote_effects (remote : completion) (now : Z) (text : string) (s : NLPProcessor) :
  let s' := snd (call_remote remote now text s) in
  config s' = config s /\ openai_client s' = openai_client s
  /\ remote_calls s' = remote_calls s ++ [text]
  /\ requests_made s' = requests_made s /\ cache_hits s' = cache_hits s.
Proof.
  unfold call_remote. destruct (remote text) as [parsed |]; cbn; [| auto 10].
  unfold _cache_response. cbn. destruct (cache_responses (config s)); cbn; auto 10.
Qed.

Lemma lookup_keeps_counters (now : Z) (text : string) (s : NLPProcessor) :
  let s' := snd (_get_cached_response now text s) in
  requests_made s' = requests_made s /\ cache_hits s' = cache_hits s.
Proof.
  unfold _get_cached_response.
  destruct (cache_responses (config s)); cbn [negb]; [| auto].
  destruct (cache s !! _get_cache_key text) as [cached |]; [| auto].
  destruct (timedelta_hours (ttl_hours cached)) as [ttl | e]; [| auto].
  destruct (now - created_at cached <? ttl); cbn; auto.
Qed.

(** The bookkeeping of one resolution.  The configuration and the client are
    untouched; the service is called at most once; [requests_made] grows by
    at most one, and by one whenever [cache_hits] grows, so that
    [cache_hits <= requests_made], the bound behind the reported hit rate,
    is kept. *)
Theorem resolution_bookkeeping (remote : completion) (now : Z) (text : string)
    (s : NLPProcessor) :
  cache_hits s <= requests_made s ->
  let s' := snd (process_command remote now text s) in
  config s' = config s
  /\ openai_client s' = openai_client s
  /\ (remote_calls s' = remote_calls s \/ remote_calls s' = remote_calls s ++ [Str.strip text])
  /\ requests_made s <= requests_made s' <= requests_made s + 1
  /\ cache_hits s <= cache_hits s' <= cache_hits s + 1
  /\ cache_hits s' <= requests_made s'.
Proof.
  intros Hinv. unfold process_command.
  destruct (negb (Str.truthy text) || negb (Str.truthy (Str.strip text)));
    [cbn; repeat split; auto; lia |].
  destruct (use_openai (config s) && openai_client s); [| cbn; repeat split; auto; lia].
  unfold _process_with_openai.
  pose proof (lookup_keeps_settings now (Str.strip text) s) as (Hcfg & Hcli & Hcalls).
  pose proof (lookup_keeps_counters now (Str.strip text) s) as (Hreq & Hhits).
  pose proof (call_remote_effects remote now (Str.strip text) s)
    as (Hcfg0 & Hcli0 & Hcalls0 & Hreq0 & Hhits0).
  destruct (cache_responses (config s)).
  - destruct (_get_cached_response now (Str.strip text) s) as [[[c |] | e] s1];
      cbn [snd] in Hcfg, Hcli, Hcalls, Hreq, Hhits.
    + cbn. rewrite Hcfg, Hcli, Hcalls, Hreq, Hhits. repeat split; auto; lia.
    + pose proof (call_remote_effects remote now (Str.strip text) s1)
        as (Hcfg1 & Hcli1 & Hcalls1 & Hreq1 & Hhits1).
      destruct (call_remote remote now (Str.strip text) s1) as [[[c |] | e] s2];
        cbn [snd] in Hcfg1, Hcli1, Hcalls1, Hreq1, Hhits1; cbn;
        rewrite Hcfg1, Hcli1, Hcalls1, Hreq1, Hhits1, Hcfg, Hcli, Hcalls, Hreq, Hhits;
        repeat split; auto; lia.
    + cbn. rewrite Hcfg, Hcli, Hcalls, Hreq, Hhits. repeat split; auto; lia.
  - destruct (call_remote remote now (Str.strip text) s) as [[[c |] | e] s2];
      cbn [snd] in Hcfg0, Hcli0, Hcalls0, Hreq0, Hhits0; cbn;
      rewrite Hcfg0, Hcli0, Hcalls0, Hreq0, Hhits0; repeat split; auto; lia.
Qed.

(** The service is down for a text that is not cached: the resolution calls
    it once, and what comes out is what the offline resolver makes of the
    text, its exception included; the cache is left alone, so what the
    offline resolver answers is never cached. *)
Theorem remote_failure_degrades_to_fallback (remote : completion) (now : Z)
    (text : string) (s : NLPProcessor) :
  use_openai (config s) = true ->
  openai_client s = true ->
  Str.truthy (Str.strip text) = true ->
  cache s !! _get_cache_key (Str.strip text) = None ->
  remote (Str.strip text) = None ->
  process_command remote now text s
  = (FallbackProcessor.process_command now (Str.strip text),
     log_remote_call (Str.strip text) s).
Proof.
  intros Huse Hclient Htext Hmiss Hdown. unfold process_command.
  rewrite Htext, (strip_truthy text Htext), Huse, Hclient. cbn [negb orb andb].
  unfold _process_with_openai, _get_cached_response, call_remote.
  rewrite Hmiss, Hdown.
  destruct (cache_responses (config s)); reflexivity.
Qed.

(** An entry whose TTL is too large for a [timedelta] (24 000 000 000 hours
    or more) poisons its text: every lookup raises, the resolution falls back
    to the offline resolver without calling the service, and the entry stays
    in the cache. *)
Theorem oversized_ttl_disables_remote_path (remote : completion) (now : Z) (text : string)
    (s : NLPProcessor) (cached : CachedResponse) (e : exn) :
  use_openai (config s) = true ->
  openai_client s = true ->
  cache_responses (config s) = true ->
  Str.truthy (Str.strip text) = true ->
  cache s !! _get_cache_key (Str.strip text) = Some cached ->
  timedelta_hours (ttl_hours cached) = Raise e ->
  process_command remote now text s
  = (FallbackProcessor.process_command now (Str.strip text), s).
Proof.
  intros Huse Hclient Hon Htext Hcached Hover. unfold process_command.
  rewrite Htext, (strip_truthy text Htext), Huse, Hclient. cbn [negb orb andb].
  unfold _process_with_openai, _get_cached_response.
  rewrite Hon, Hcached, Hover. reflexivity.
Qed.

End ResolverBookkeeping.

(** * The resolver and the validator together *)

Section ResolveThenValidate.
Context `{Runtime}.
Import NLPProcessor.

(** An empty or blank utterance never reaches a handler: the [error]
    command it resolves to has confidence 0.0, which any dispatcher rejects
    as "Command confidence too low", staying as it was. *)
Theorem blank_utterance_rejected_by_dispatcher (remote : completion)
    (start_time now : Z) (text : string) (s : NLPProcessor) (d : CommandDispatcher) :
  Str.truthy (Str.strip text) = false ->
  exists c,
    process_command remote now text s = (Ret c, s)
    /\ CommandDispatcher.dispatch_command start_time now c d
       = CommandDispatcher.Returned
           {| success := false;
              message := "Command validation failed: Command confidence too low";
              data := None;
              error := Some "Command confidence too low";
              execution_time := now - start_time;
              result_timestamp := now |} d.
Proof.
  intros Hblank. exists (error_command now text). split.
  - unfold process_command. rewrite Hblank, orb_true_r. reflexivity.
  - apply (dispatch_rejected d start_time now (error_command now text)
             (Some "Command confidence too low")).
    reflexivity.
Qed.

(** Whatever the offline resolver returns clears the confidence gate of the
    validator: its confidences, 0.7 and 0.3, are not below 0.3.  The generic
    query made for a text that no pattern matches passes validation as a
    whole. *)
Theorem fallback_commands_clear_confidence_gate (now : Z) (text : string)
    (c : CommandResult) :
  FallbackProcessor.process_command now text = Ret c ->
  PrimFloat.ltb (confidence c) 0.3%float = false
  /\ (FallbackProcessor.match_intents FallbackProcessor.intent_patterns
        (Str.lower (Str.strip text)) = None ->
      CommandValidator.validate_command c = Ret (true, None)).
Proof.
  unfold FallbackProcessor.process_command.
  destruct (FallbackProcessor.match_intents FallbackProcessor.intent_patterns
              (Str.lower (Str.strip text))) as [[matched groups] |].
  - destruct (FallbackProcessor.extract_entities matched groups) as [es | e];
      [| discriminate].
    cbn [obind]. intros Hc. inversion Hc; subst c. split; [reflexivity | discriminate].
  - intros Hc. inversion Hc; subst c. split; reflexivity.
Qed.

(** A reply of the service that names no intent becomes the intent
    [unknown], which no dispatcher executes: the dispatch is rejected by the
    validator, at the confidence gate or as "Unknown command intent". *)
Theorem reply_without_intent_rejected (remote : completion) (start_time now : Z)
    (text : string) (s : NLPProcessor) (d : CommandDispatcher) (parsed : Reply) :
  use_openai (config s) = true ->
  openai_client s = true ->
  Str.truthy (Str.strip text) = true ->
  cache s !! _get_cache_key (Str.strip text) = None ->
  remote (Str.strip text) = Some parsed ->
  reply_intent parsed = None ->
  exists c s' r,
    process_command remote now text s = (Ret c, s')
    /\ intent c = "unknown"
    /\ CommandDispatcher.dispatch_command start_time now c d
       = CommandDispatcher.Returned r d
    /\ success r = false
    /\ (error r = Some "Command confidence too low"
        \/ error r = Some "Unknown command intent").
Proof.
  intros Huse Hclient Htext Hmiss Hreply Hintent. unfold process_command.
  rewrite Htext, (strip_truthy text Htext), Huse, Hclient. cbn [negb orb andb].
  unfold _process_with_openai, _get_cached_response, call_remote.
  rewrite Hmiss, Hreply, Hintent. cbn [default].
  set (c := {| intent := "unknown";
               entities := default ∅ (reply_entities parsed);
               confidence := default 0.5%float (reply_confidence parsed);
               requires_confirmation :=
                 truthy (default (VBool false) (reply_requires_confirmation parsed));
               raw_text := Str.strip text;
               processing_method := "openai";
               timestamp := now |}).
  assert (Hv : exists reason,
             CommandValidator.validate_command c = Ret (false, Some reason)
             /\ (reason = "Command confidence too low" \/ reason = "Unknown command intent")).
  { unfold CommandValidator.validate_command.
    destruct (PrimFloat.ltb (confidence c) 0.3); eexists; split;
      try reflexivity; auto. }
  destruct Hv as (reason & Hv & Hreason).
  assert (Hdispatch : exists r,
             CommandDispatcher.dispatch_command start_time now c d
             = CommandDispatcher.Returned r d
             /\ success r = false
             /\ (error r = Some "Command confidence too low"
                 \/ error r = Some "Unknown command intent")).
  { eexists. split; [exact (dispatch_rejected d start_time now c (Some reason) Hv) |].
    cbn. split; [reflexivity |]. destruct Hreason as [-> | ->]; auto. }
  destruct Hdispatch as (r & Hd & Hfail & Herr).
  destruct (cache_responses (config s)) eqn:Hon; cbn [negb config log_remote_call];
    rewrite ?Hon; exists c; eexists; exists r; (split; [reflexivity |]); auto.
Qed.

End ResolveThenValidate.

(** * The cache file *)

Section CacheFile.
Import NLPProcessor.

Lemma load_stored_command (c : CommandResult) : load_command (store_command c) = Some c.
Proof. destruct c. reflexivity. Qed.

(** Reading back a member that [_save_cache] wrote. *)
Lemma load_stored_entry (now : Z) (k : string) (e : CachedResponse) (ttl : Z)
    (c : gmap string CachedResponse) :
  timedelta_hours (ttl_hours e) = Ret ttl ->
  load_entry now k (store_entry e) c
  = Some (if fresh now e
          then <[ k := {| key := k; response := response e; created_at := created_at e;
                          ttl_hours := ttl_hours e |} ]> c
          else c).
Proof.
  intros Httl. unfold load_entry, fresh. cbn [store_entry stored_created_at
    stored_ttl_hours stored_response mbind option_bind]. rewrite Httl.
  destruct (now - created_at e <? ttl); [| reflexivity].
  rewrite load_stored_command. reflexivity.
Qed.

Lemma load_saved_entries (now : Z) (l : list (string * CachedResponse)) :
  NoDup l.*1 ->
  Forall (fun entry => exists ttl, timedelta_hours (ttl_hours entry.2) = Ret ttl) l ->
  forall (c : gmap string CachedResponse) (k : string),
    load_entries now (map (fun entry => (entry.1, store_entry entry.2)) l) c !! k
    = match (list_to_map l : gmap string CachedResponse) !! k with
      | Some e =>
          if fresh now e
          then Some {| key := k; response := response e; created_at := created_at e;
                       ttl_hours := ttl_hours e |}
          else c !! k
      | None => c !! k
      end.
Proof.
  induction l as [| [k0 e0] l IH]; intros Hnodup Hok c k; [reflexivity |].
  rewrite fmap_cons in Hnodup. apply NoDup_cons in Hnodup as [Hfresh Hnodup].
  cbn [fst] in Hfresh.
  apply Forall_cons in Hok as [[ttl Httl] Hok]. cbn [snd] in Httl.
  cbn [map load_entries fst snd]. rewrite (load_stored_entry now k0 e0 ttl c Httl).
  rewrite (IH Hnodup Hok). cbn [list_to_map foldr uncurry fst snd].
  destruct (decide (k = k0)) as [-> | Hne].
  - rewrite lookup_insert_eq.
    rewrite (not_elem_of_list_to_map_1 l k0 Hfresh).
    destruct (fresh now e0); [apply lookup_insert_eq | reflexivity].
  - rewrite lookup_insert_ne by congruence.
    destruct (list_to_map l !! k) as [e |].
    + destruct (fresh now e); [reflexivity |].
      destruct (fresh now e0); [apply lookup_insert_ne; congruence | reflexivity].
    + destruct (fresh now e0); [apply lookup_insert_ne; congruence | reflexivity].
Qed.

(** Save, then load.  When every TTL of the cache is one a [timedelta] can
    hold, loading the file that [_save_cache] wrote into an empty cache
    brings back, under its key, each entry that is still below its TTL at
    the time of loading, with its command, creation time and TTL; the
    entries that have reached their TTL are not loaded. *)
Theorem save_then_load (now : Z) (s s0 : NLPProcessor) (k : string) :
  (forall k' e, cache s !! k' = Some e ->
                exists ttl, timedelta_hours (ttl_hours e) = Ret ttl) ->
  cache (_load_cache now (Some (_save_cache s)) (clear_cache s0)) !! k
  = match cache s !! k with
    | Some e =>
        if fresh now e
        then Some {| key := k; response := response e; created_at := created_at e;
                     ttl_hours := ttl_hours e |}
        else None
    | None => None
    end.
Proof.
  intros Hok. unfold _load_cache, _save_cache, clear_cache. cbn [cache set_cache].
  rewrite load_saved_entries.
  - rewrite list_to_map_to_list, lookup_empty.
    destruct (cache s !! k) as [e |]; reflexivity.
  - apply NoDup_fst_map_to_list.
  - apply Forall_forall. intros [k' e] Hin. apply elem_of_map_to_list in Hin.
    exact (Hok k' e Hin).
Qed.

(** A member of the file that cannot be read (a missing member, a date that
    is no date, a TTL no [timedelta] can hold) is not skipped: it ends the
    loading, and the members after it are not loaded even if they are well
    formed. *)
Theorem load_stops_at_malformed_entry (now : Z) (k : string) (bad : StoredEntry)
    (before after : list (string * StoredEntry)) (c : gmap string CachedResponse) :
  (forall c', load_entry now k bad c' = None) ->
  load_entries now (before ++ (k, bad) :: after) c = load_entries now before c.
Proof.
  intros Hbad. revert c.
  induction before as [| [k0 item] before IH]; intros c; cbn [app load_entries].
  - rewrite Hbad. reflexivity.
  - destruct (load_entry now k0 item c) as [c' |]; [apply IH | reflexivity].
Qed.

End CacheFile.

(** * The consumer of the event loop *)

Section ConsumerPolicies.
Context `{Runtime}.
Import Consumer.

(** A command that asks for confirmation is never executed by
    [dispatch_command]: whatever the validator and the registry say, the
    dispatch returns a failed result, invokes no handler and records
    nothing. *)
Lemma confirmation_never_dispatched (d : CommandDispatcher) (start_time now : Z)
    (c : CommandResult) :
  requires_confirmation c = true ->
  exists r d',
    CommandDispatcher.dispatch_command start_time now c d = CommandDispatcher.Returned r d'
    /\ success r = false
    /\ invocations d' = invocations d
    /\ command_history d' = command_history d.
Proof.
  intros Hc.
  destruct (CommandValidator.validate_command c) as [[[] reason] | e] eqn:Hv.
  - destruct (CommandDispatcher.lookup_handler d (intent c)) as [h |] eqn:Hh.
    + eexists _, d. split; [exact (dispatch_gated d start_time now c reason h Hv Hh Hc) |].
      cbn. auto.
    + eexists _, d. split.
      * unfold CommandDispatcher.dispatch_command, CommandDispatcher.try_except,
          CommandDispatcher.bind, CommandDispatcher.lift, CommandDispatcher.get.
        rewrite Hv. cbn [negb]. rewrite Hh. reflexivity.
      * cbn. auto.
  - eexists _, d. split; [exact (dispatch_rejected d start_time now c reason Hv) |].
    cbn. auto.
  - eexists _, _. split; [exact (validator_exception_absorbed d start_time now c e Hv) |].
    cbn. auto.
Qed.

(** The hotkey-only policy.  An utterance heard after the wake word whose
    command asks for confirmation is turned away before the dispatcher when
    the policy is on: the result names the hotkey, the dispatcher is
    untouched, and the utterance counts neither as processed nor as
    failed. *)
Theorem wake_word_confirmation_turned_away (remote : completion) (start_time now : Z)
    (item : CommandQueue) (p : Pipeline) (c : CommandResult) (n : NLPProcessor) :
  source item = "wake_word" ->
  sensitive_commands_hotkey_only p = Some true ->
  NLPProcessor.process_command remote now (queued_text item) (nlp_processor p) = (Ret c, n) ->
  requires_confirmation c = true ->
  exists p',
    _process_command remote start_time now item p
    = Done (failure now "This command requires hotkey activation (Ctrl+Space)"
              "Sensitive command from wake word") p'
    /\ command_dispatcher p' = command_dispatcher p
    /\ nlp_processor p' = n
    /\ commands_processed p' = commands_processed p
    /\ loop_commands_failed p' = loop_commands_failed p
    /\ processing_command (loop p') = false.
Proof.
  intros Hsrc Hpolicy Hresolve Hc. unfold _process_command.
  cbn [nlp_processor set_loop]. rewrite Hresolve, Hc, Hsrc.
  cbn [andb String.eqb]. 
  change (sensitive_commands_hotkey_only
            (set_collaborators n
               (command_dispatcher (set_loop (set_processing true) p))
               (set_loop (set_processing true) p)))
    with (sensitive_commands_hotkey_only p).
  rewrite Hpolicy. eexists. split; [reflexivity |]. cbn. auto 10.
Qed.

(** No source and no setting of the policy lets a command that asks for
    confirmation through: [_process_command] returns a failed result, no
    handler is invoked and the history is as before. *)
Theorem confirmation_never_executed (remote : completion) (start_time now : Z)
    (item : CommandQueue) (p : Pipeline) (c : CommandResult) (n : NLPProcessor) :
  NLPProcessor.process_command remote now (queued_text item) (nlp_processor p) = (Ret c, n) ->
  requires_confirmation c = true ->
  exists r p',
    _process_command remote start_time now item p = Done r p'
    /\ success r = false
    /\ invocations (command_dispatcher p') = invocations (command_dispatcher p)
    /\ command_history (command_dispatcher p') = command_history (command_dispatcher p)
    /\ processing_command (loop p') = false.
Proof.
  intros Hresolve Hc. unfold _process_command.
  cbn [nlp_processor set_loop]. rewrite Hresolve, Hc. cbn [andb].
  destruct (confirmation_never_dispatched (command_dispatcher p) start_time now c Hc)
    as (r & d' & Hd & Hfail & Hinv & Hhist).
  assert (Hdispatch :
    exists r p',
      match CommandDispatcher.dispatch_command start_time now c
              (command_dispatcher
                 (set_collaborators n
                    (command_dispatcher (set_loop (set_processing true) p))
                    (set_loop (set_processing true) p))) with
      | CommandDispatcher.Returned result d =>
          Done result
            (set_loop (set_processing false)
               (count 1 (if success result then 0 else 1)
                  (set_collaborators
                     (nlp_processor
                        (set_collaborators n
                           (command_dispatcher (set_loop (set_processing true) p))
                           (set_loop (set_processing true) p))) d
                     (set_collaborators n
                        (command_dispatcher (set_loop (set_processing true) p))
                        (set_loop (set_processing true) p)))))
      | CommandDispatcher.Raised e d =>
          absorbed now e
            (set_collaborators
               (nlp_processor
                  (set_collaborators n
                     (command_dispatcher (set_loop (set_processing true) p))
                     (set_loop (set_processing true) p))) d
               (set_collaborators n
                  (command_dispatcher (set_loop (set_processing true) p))
                  (set_loop (set_processing true) p)))
      | CommandDispatcher.Blocked d =>
          Stuck
            (set_collaborators
               (nlp_processor
                  (set_collaborators n
                     (command_dispatcher (set_loop (set_processing true) p))
                     (set_loop (set_processing true) p))) d
               (set_collaborators n
                  (command_dispatcher (set_loop (set_processing true) p))
                  (set_loop (set_processing true) p)))
      end = Done r p'
      /\ success r = false
      /\ invocations (command_dispatcher p') = invocations (command_dispatcher p)
      /\ command_history (command_dispatcher p') = command_history (command_dispatcher p)
      /\ processing_command (loop p') = false).
  { cbn [command_dispatcher set_collaborators set_loop]. rewrite Hd.
    eexists _, _. split; [reflexivity |]. cbn. auto. }
  destruct (String.eqb (source item) "wake_word"); [| exact Hdispatch].
  cbn [sensitive_commands_hotkey_only set_collaborators set_loop].
  destruct (sensitive_commands_hotkey_only p) as [[] |]; [| exact Hdispatch |].
  - eexists _, _. split; [reflexivity |]. cbn. auto.
  - eexists _, _. split; [reflexivity |]. cbn. auto.
Qed.

(** An exception of the resolver does not leave [_process_command]: it ends
    in a failed result that carries its text, counted as failed and not as
    processed, with the dispatcher untouched and [processing_command]
    reset. *)
Theorem resolver_exception_absorbed (remote : completion) (start_time now : Z)
    (item : CommandQueue) (p : Pipeline) (e : exn) (n : NLPProcessor) :
  NLPProcessor.process_command remote now (queued_text item) (nlp_processor p)
    = (Raise e, n) ->
  exists p',
    _process_command remote start_time now item p
    = Done (failure now ("Error processing command: " +:+ exn_str e) (exn_str e)) p'
    /\ command_dispatcher p' = command_dispatcher p
    /\ commands_processed p' = commands_processed p
    /\ loop_commands_failed p' = loop_commands_failed p + 1
    /\ processing_command (loop p') = false.
Proof.
  intros Hresolve. unfold _process_command.
  cbn [nlp_processor set_loop]. rewrite Hresolve.
  eexists. split; [reflexivity |]. cbn. repeat split; lia.
Qed.

End ConsumerPolicies.

Section Feedback.
Context `{Runtime}.
Import Consumer.

(** The spoken prompt "Please confirm by pressing Ctrl+Space and saying
    'confirm'" waits for an error that contains "requires confirmation".
    Neither "Confirmation required", the error of the dispatcher's
    confirmation gate, nor "System commands require confirmation", the
    validator's, contains it: for both the feedback is the apology made from
    the message. *)
Theorem confirmation_prompt_not_spoken (result : ExecutionResult) (s : EventLoop) :
  success result = false ->
  error result = Some "Confirmation required"
  \/ error result = Some "System commands require confirmation" ->
  _provide_command_feedback result s
  = Ret (EventLoop.speak ("I'm sorry, " +:+ Str.lower (message result)) s).
Proof.
  intros Hfail Herr. unfold _provide_command_feedback. rewrite Hfail.
  destruct Herr as [-> | ->]; reflexivity.
Qed.

(** A failed result that names no error makes the feedback raise; the turn
    of the main loop ends all the same, the utterance taken from the queue
    and nothing said to the user. *)
Theorem failure_without_error_gets_no_feedback (remote : completion) (start_time now : Z)
    (p p' : Pipeline) (item : CommandQueue) (rest : list CommandQueue)
    (result : ExecutionResult) :
  command_queue (loop p) = item :: rest ->
  _process_command remote start_time now item (set_loop (EventLoop.set_queue rest) p)
    = Done result p' ->
  success result = false ->
  error result = None ->
  _provide_command_feedback result (loop p') = Raise (no_attribute VNone "lower")
  /\ main_loop_turn remote start_time now p = inl (Done result p').
Proof.
  intros Hq Hprocess Hfail Herr.
  assert (Hraise : _provide_command_feedback result (loop p')
                   = Raise (no_attribute VNone "lower")).
  { unfold _provide_command_feedback. rewrite Hfail, Herr. reflexivity. }
  split; [exact Hraise |].
  unfold main_loop_turn. rewrite Hq. cbn [queue_get]. rewrite Hprocess, Hraise.
  reflexivity.
Qed.

End Feedback.

(** * The producers and the queue *)

Section Producers.
Import EventLoop.

(** A recognised text that is blank in its whole length counts as the wake
    word, whatever the wake word is: stripped, it is the empty string, which
    is found in any wake word. *)
Theorem blank_text_is_wake_word (s : EventLoop) (text : string) :
  Str.truthy text = true ->
  Str.strip (Str.lower text) = "" ->
  _is_wake_word s text = true.
Proof.
  intros Htext Hblank. unfold _is_wake_word. rewrite Htext, Hblank. cbn [negb].
  apply orb_true_iff. right. destruct (Str.lower (wake_word s)); reflexivity.
Qed.

(** With room in the queue the hotkey producer does not wait and says
    nothing: the utterance goes to the end of the queue, tagged "hotkey", so
    that the consumer's next [get] still takes the oldest utterance, and
    [hotkey_active] is reset. *)
Theorem hotkey_enqueues_at_the_end (s : EventLoop) (now : Z) (freed : option Z)
    (command : string) :
  Z.of_nat (length (command_queue s)) < 100 ->
  Str.truthy command = true ->
  let item := {| queued_text := command; queued_at := now; source := "hotkey" |} in
  let r := _handle_hotkey_activation (Some command) now freed s in
  snd r = 0
  /\ command_queue (fst r) = command_queue s ++ [item]
  /\ spoken (fst r) = spoken s
  /\ hotkey_active (fst r) = false
  /\ Consumer.queue_get (command_queue (fst r))
     = Some (match command_queue s with
             | [] => (item, [])
             | oldest :: others => (oldest, others ++ [item])
             end).
Proof.
  intros Hroom Hcmd. cbv zeta.
  unfold _handle_hotkey_activation, heard, enqueue, queue_put. rewrite Hcmd.
  cbn [command_queue set_hotkey_active].
  destruct (Z.ltb_spec (Z.of_nat (length (command_queue s))) maxsize) as [_ | Hfull];
    [| unfold maxsize in Hfull; lia].
  cbn. repeat split. destruct (command_queue s); reflexivity.
Qed.

End Producers.

(** * The properties above at sample data *)


Lemma validator_exception_absorbed_witness :
  CommandDispatcher.dispatch_command 1 2
    (Sample.fallback_command "open_app" {[ "app_name" := VInt 7 ]} false "open 7")
    Sample.dispatcher
  = CommandDispatcher.Returned
      {| success := false;
         message := "Error executing command: 'int' object has no attribute 'strip'";
         data := None;
         error := Some "'int' object has no attribute 'strip'";
         execution_time := 1;
         result_timestamp := 2 |}
      (CommandDispatcher.set_counters id Z.succ id Sample.dispatcher).
Proof.
  apply (validator_exception_absorbed Sample.dispatcher 1 2
           (Sample.fallback_command "open_app" {[ "app_name" := VInt 7 ]} false "open 7")
           (AttributeError "'int' object has no attribute 'strip'")).
  vm_compute. reflexivity.
Defined.

Lemma commands_failed_only_counts_exceptions_witness :
  exists r d',
    CommandDispatcher.dispatch_command 1 2 Sample.open_chrome Sample.quiet_dispatcher
      = CommandDispatcher.Returned r d'
    /\ success r = false
    /\ commands_failed d' = commands_failed Sample.quiet_dispatcher.
Proof.
  eexists _, _. split; [vm_compute; reflexivity |]. split; [reflexivity |].
  eapply (commands_failed_only_counts_exceptions Sample.quiet_dispatcher _ 1 2
            Sample.open_chrome (true, None)).
  - vm_compute. reflexivity.
  - vm_compute. reflexivity.
Defined.

Lemma dispatch_keeps_history_bound_witness :
  match CommandDispatcher.dispatch_command 1 2 Sample.open_chrome Sample.dispatcher with
  | CommandDispatcher.Returned _ d' | CommandDispatcher.Raised _ d'
  | CommandDispatcher.Blocked d' =>
      max_history_size d' = max_history_size Sample.dispatcher
      /\ Z.of_nat (length (command_history d')) <= max_history_size Sample.dispatcher
  end.
Proof.
  apply (dispatch_keeps_history_bound Sample.dispatcher 1 2 Sample.open_chrome).
  - reflexivity.
  - discriminate.
Defined.

Lemma unregistered_intent_has_no_handler_witness :
  CommandDispatcher.dispatch_command 1 2
    (Sample.fallback_command "open_website" ∅ false "open example.org")
    Sample.full_dispatcher
  = CommandDispatcher.Returned
      {| success := false;
         message := "No handler available for command: open_website";
         data := None;
         error := Some "Unknown command intent: open_website";
         execution_time := 1;
         result_timestamp := 2 |}
      Sample.full_dispatcher.
Proof.
  apply (unregistered_intent_has_no_handler Sample.full_dispatcher 1 2
           (Sample.fallback_command "open_website" ∅ false "open example.org") None).
  - intros Hin. vm_compute in Hin.
    repeat (apply elem_of_cons in Hin as [Hin | Hin]; [discriminate Hin |]).
    apply elem_of_nil in Hin. exact Hin.
  - vm_compute. reflexivity.
Defined.

Lemma registered_intent_has_handler_witness :
  is_Some (CommandDispatcher.lookup_handler Sample.full_dispatcher "adjust_volume").
Proof.
  apply (registered_intent_has_handler Sample.full_dispatcher "adjust_volume");
    try (eexists; reflexivity).
  unfold CommandDispatcher.registered_intents.
  do 19 (apply elem_of_cons; right). apply elem_of_cons. left. reflexivity.
Defined.

Lemma timer_valid_iff_witness :
  CommandValidator.validate_command (Sample.timer_command 90 "Minutes") = Ret (true, None)
  <-> 0 < 90
      /\ (if Str.contains "minute" (Str.lower "Minutes") then 90 <= 1440
          else if Str.contains "hour" (Str.lower "Minutes") then 90 <= 24
          else True).
Proof.
  apply (timer_valid_iff (Sample.timer_command 90 "Minutes") 90 "Minutes").
  - reflexivity.
  - reflexivity.
  - vm_compute. reflexivity.
  - vm_compute. reflexivity.
Defined.

Lemma dangerous_app_refused_to_open_not_to_close_witness :
  CommandValidator.validate_command
    (Sample.fallback_command "open_app" {[ "app_name" := VStr " PowerShell " ]} false "")
  = Ret (false, Some "Cannot open PowerShell for security reasons")
  /\ CommandValidator.validate_command
       (Sample.fallback_command "close_app" {[ "app_name" := VStr " PowerShell " ]} false "")
     = Ret (true, None).
Proof.
  apply (dangerous_app_refused_to_open_not_to_close
           (Sample.fallback_command "open_app" {[ "app_name" := VStr " PowerShell " ]} false "")
           (Sample.fallback_command "close_app" {[ "app_name" := VStr " PowerShell " ]} false "")
           " PowerShell ");
    try (vm_compute; reflexivity).
  do 2 (apply elem_of_cons; right). apply elem_of_cons. left. vm_compute. reflexivity.
Defined.

Lemma get_command_history_slices_witness :
  exists entries,
    CommandDispatcher.get_command_history (-1)
      (Sample.with_history [Sample.entry Sample.open_chrome Sample.succeeded;
                            Sample.entry Sample.get_info Sample.succeeded])
    = CommandDispatcher.Returned entries
        (Sample.with_history [Sample.entry Sample.open_chrome Sample.succeeded;
                              Sample.entry Sample.get_info Sample.succeeded])
    /\ entries = [Sample.entry Sample.get_info Sample.succeeded].
Proof.
  destruct (get_command_history_slices
              (Sample.with_history [Sample.entry Sample.open_chrome Sample.succeeded;
                                    Sample.entry Sample.get_info Sample.succeeded])
              (-1) eq_refl) as (entries & Hget & _ & _ & Hneg).
  exists entries. split; [exact Hget |]. apply Hneg. reflexivity.
Defined.

Lemma undo_without_success_witness :
  CommandDispatcher.undo_last_command 1 2 Sample.dispatcher
  = CommandDispatcher.Returned
      (CommandDispatcher.plain_failure 2 "No commands to undo") Sample.dispatcher.
Proof.
  apply (undo_without_success Sample.dispatcher 1 2).
  - reflexivity.
  - constructor.
Defined.

Lemma undo_rejected_by_validator_witness :
  CommandDispatcher.undo_last_command 1 2
    (Sample.with_history
       [Sample.entry (Sample.fallback_command "close_app" {[ "app_name" := VStr "cmd" ]}
                        false "close cmd")
                     Sample.succeeded])
  = CommandDispatcher.Returned
      {| success := false;
         message := "Command validation failed: Cannot open cmd for security reasons";
         data := None;
         error := Some "Cannot open cmd for security reasons";
         execution_time := 1;
         result_timestamp := 2 |}
      (Sample.with_history
         [Sample.entry (Sample.fallback_command "close_app" {[ "app_name" := VStr "cmd" ]}
                          false "close cmd")
                       Sample.succeeded]).
Proof.
  eapply (undo_rejected_by_validator _ 1 2 [] []
            (Sample.entry (Sample.fallback_command "close_app"
                             {[ "app_name" := VStr "cmd" ]} false "close cmd")
                          Sample.succeeded)
            _ (Some "Cannot open cmd for security reasons")).
  - reflexivity.
  - reflexivity.
  - constructor.
  - reflexivity.
  - apply elem_of_cons. right. apply elem_of_cons. left. reflexivity.
  - reflexivity.
  - vm_compute. reflexivity.
Defined.

Lemma undo_command_inverse_witness :
  exists u u',
    CommandDispatcher._create_undo_command 1 Sample.open_chrome = Some u
    /\ CommandDispatcher._create_undo_command 2 u = Some u'
    /\ intent u' = "open_app"
    /\ entities u' = {[ "app_name" := VStr "Chrome" ]}.
Proof.
  destruct (proj1 (undo_command_inverse 1 2 Sample.open_chrome) (or_introl eq_refl))
    as (u & u' & Hu & Hu' & Hi & He & _).
  exists u, u'. auto.
Defined.

Lemma cached_response_found_ignoring_case_witness :
  NLPProcessor._get_cached_response 1000 "What Time Is It" Sample.warm_resolver
  = (Ret (Some Sample.time_command), Sample.warm_resolver).
Proof.
  apply (cached_response_found_ignoring_case 0 1000 "what time is it" "What Time Is It"
           Sample.time_command Sample.resolver Sample.one_hour); reflexivity.
Defined.

Lemma resolution_bookkeeping_witness :
  let s' := snd (NLPProcessor.process_command Sample.remote 5 "what time is it"
                   Sample.warm_resolver) in
  config s' = config Sample.warm_resolver
  /\ openai_client s' = openai_client Sample.warm_resolver
  /\ (remote_calls s' = remote_calls Sample.warm_resolver
      \/ remote_calls s'
         = remote_calls Sample.warm_resolver ++ [Str.strip "what time is it"])
  /\ requests_made Sample.warm_resolver <= requests_made s'
     <= requests_made Sample.warm_resolver + 1
  /\ cache_hits Sample.warm_resolver <= cache_hits s'
     <= cache_hits Sample.warm_resolver + 1
  /\ cache_hits s' <= requests_made s'.
Proof.
  apply (resolution_bookkeeping Sample.remote 5 "what time is it" Sample.warm_resolver).
  discriminate.
Defined.

Lemma remote_failure_degrades_to_fallback_witness :
  NLPProcessor.process_command Sample.remote_down 5 "Open Chrome" Sample.resolver
  = (FallbackProcessor.process_command 5 (Str.strip "Open Chrome"),
     log_remote_call (Str.strip "Open Chrome") Sample.resolver).
Proof.
  apply (remote_failure_degrades_to_fallback Sample.remote_down 5 "Open Chrome"
           Sample.resolver); reflexivity.
Defined.

Lemma oversized_ttl_disables_remote_path_witness :
  NLPProcessor.process_command Sample.remote 5 "what time is it" Sample.poisoned_resolver
  = (FallbackProcessor.process_command 5 (Str.strip "what time is it"),
     Sample.poisoned_resolver).
Proof.
  eapply (oversized_ttl_disables_remote_path Sample.remote 5 "what time is it"
            Sample.poisoned_resolver).
  - reflexivity.
  - reflexivity.
  - reflexivity.
  - reflexivity.
  - vm_compute. reflexivity.
  - vm_compute. reflexivity.
Defined.

Lemma blank_utterance_rejected_by_dispatcher_witness :
  exists c,
    NLPProcessor.process_command Sample.remote 6 "  " Sample.resolver
      = (Ret c, Sample.resolver)
    /\ CommandDispatcher.dispatch_command 5 6 c Sample.full_dispatcher
       = CommandDispatcher.Returned
           {| success := false;
              message := "Command validation failed: Command confidence too low";
              data := None;
              error := Some "Command confidence too low";
              execution_time := 6 - 5;
              result_timestamp := 6 |} Sample.full_dispatcher.
Proof.
  apply (blank_utterance_rejected_by_dispatcher Sample.remote 5 6 "  " Sample.resolver
           Sample.full_dispatcher).
  reflexivity.
Defined.

Lemma fallback_commands_clear_confidence_gate_witness :
  exists c,
    FallbackProcessor.process_command 5 "Hello there" = Ret c
    /\ PrimFloat.ltb (confidence c) 0.3%float = false
    /\ CommandValidator.validate_command c = Ret (true, None).
Proof.
  eexists. split; [vm_compute; reflexivity |].
  eassert (Hc : FallbackProcessor.process_command 5 "Hello there" = Ret _)
    by (vm_compute; reflexivity).
  destruct (fallback_commands_clear_confidence_gate 5 "Hello there" _ Hc) as [Hgate Hvalid].
  split; [exact Hgate |]. apply Hvalid. vm_compute. reflexivity.
Defined.

Lemma reply_without_intent_rejected_witness :
  exists c s' r,
    NLPProcessor.process_command Sample.remote_without_intent 6 "do something"
      Sample.resolver = (Ret c, s')
    /\ intent c = "unknown"
    /\ CommandDispatcher.dispatch_command 5 6 c Sample.full_dispatcher
       = CommandDispatcher.Returned r Sample.full_dispatcher
    /\ success r = false
    /\ (error r = Some "Command confidence too low"
        \/ error r = Some "Unknown command intent").
Proof.
  apply (reply_without_intent_rejected Sample.remote_without_intent 5 6 "do something"
           Sample.resolver Sample.full_dispatcher
           {| reply_intent := None; reply_entities := None;
              reply_confidence := Some 0.9%float; reply_requires_confirmation := None |});
    reflexivity.
Defined.

Lemma save_then_load_witness :
  cache (NLPProcessor._load_cache 1000
           (Some (NLPProcessor._save_cache Sample.warm_resolver))
           (NLPProcessor.clear_cache Sample.resolver))
    !! NLPProcessor._get_cache_key "what time is it"
  = match cache Sample.warm_resolver !! NLPProcessor._get_cache_key "what time is it" with
    | Some e =>
        if NLPProcessor.fresh 1000 e
        then Some {| key := NLPProcessor._get_cache_key "what time is it";
                     response := response e; created_at := created_at e;
                     ttl_hours := ttl_hours e |}
        else None
    | None => None
    end.
Proof.
  apply (save_then_load 1000 Sample.warm_resolver Sample.resolver).
  intros k' e He. exists Sample.one_hour.
  change (cache Sample.warm_resolver)
    with (<[ NLPProcessor._get_cache_key "what time is it"
             := {| key := NLPProcessor._get_cache_key "what time is it";
                   response := Sample.time_command; created_at := 0; ttl_hours := 1 |} ]>
            (∅ : gmap string CachedResponse)) in He.
  apply lookup_insert_Some in He as [[_ <-] | [_ He]]; [reflexivity |].
  rewrite lookup_empty in He. discriminate He.
Defined.

Lemma load_stops_at_malformed_entry_witness :
  NLPProcessor.load_entries 1000
    ([("first", NLPProcessor.store_entry
                  {| key := "first"; response := Sample.time_command; created_at := 0;
                     ttl_hours := 1 |})]
     ++ ("second", Sample.undated_entry)
     :: [("third", NLPProcessor.store_entry
                     {| key := "third"; response := Sample.time_command; created_at := 0;
                        ttl_hours := 1 |})]) ∅
  = NLPProcessor.load_entries 1000
      [("first", NLPProcessor.store_entry
                   {| key := "first"; response := Sample.time_command; created_at := 0;
                      ttl_hours := 1 |})] ∅.
Proof.
  apply (load_stops_at_malformed_entry 1000 "second" Sample.undated_entry).
  intros c'. reflexivity.
Defined.

Lemma wake_word_confirmation_turned_away_witness :
  exists p',
    Consumer._process_command Sample.remote_down 1 2
      (Sample.heard_after_wake_word "shutdown the computer")
      (Sample.pipeline (Some true) Sample.full_dispatcher)
    = Consumer.Done
        (Consumer.failure 2 "This command requires hotkey activation (Ctrl+Space)"
           "Sensitive command from wake word") p'
    /\ command_dispatcher p' = Sample.full_dispatcher
    /\ commands_processed p' = 0
    /\ loop_commands_failed p' = 0.
Proof.
  destruct (wake_word_confirmation_turned_away Sample.remote_down 1 2
              (Sample.heard_after_wake_word "shutdown the computer")
              (Sample.pipeline (Some true) Sample.full_dispatcher)
              {| intent := "shutdown_system"; entities := ∅; confidence := 0.7%float;
                 requires_confirmation := true; raw_text := "shutdown the computer";
                 processing_method := "fallback"; timestamp := 2 |}
              Sample.offline_resolver)
    as (p' & Hp & Hd & _ & Hproc & Hfail & _);
    try first [reflexivity | vm_compute; reflexivity].
  exists p'. auto.
Defined.

Lemma confirmation_never_executed_witness :
  exists r p',
    Consumer._process_command Sample.remote_down 1 2
      (Sample.heard_after_hotkey "shutdown the computer")
      (Sample.pipeline (Some true) Sample.full_dispatcher) = Consumer.Done r p'
    /\ success r = false
    /\ invocations (command_dispatcher p') = []
    /\ command_history (command_dispatcher p') = [].
Proof.
  destruct (confirmation_never_executed Sample.remote_down 1 2
              (Sample.heard_after_hotkey "shutdown the computer")
              (Sample.pipeline (Some true) Sample.full_dispatcher)
              {| intent := "shutdown_system"; entities := ∅; confidence := 0.7%float;
                 requires_confirmation := true; raw_text := "shutdown the computer";
                 processing_method := "fallback"; timestamp := 2 |}
              Sample.offline_resolver)
    as (r & p' & Hp & Hfail & Hinv & Hhist & _);
    try first [reflexivity | vm_compute; reflexivity].
  exists r, p'. auto.
Defined.

Lemma resolver_exception_absorbed_witness :
  exists p',
    Consumer._process_command Sample.remote_down 1 2
      (Sample.heard_after_hotkey "count to ten")
      (Sample.pipeline (Some true) Sample.full_dispatcher)
    = Consumer.Done
        (Consumer.failure 2
           "Error processing command: invalid literal for int() with base 10: 'to ten'"
           "invalid literal for int() with base 10: 'to ten'") p'
    /\ command_dispatcher p' = Sample.full_dispatcher
    /\ loop_commands_failed p' = 1.
Proof.
  destruct (resolver_exception_absorbed Sample.remote_down 1 2
              (Sample.heard_after_hotkey "count to ten")
              (Sample.pipeline (Some true) Sample.full_dispatcher)
              (ValueError "invalid literal for int() with base 10: 'to ten'")
              Sample.offline_resolver)
    as (p' & Hp & Hd & _ & Hfail & _);
    try (vm_compute; reflexivity).
  exists p'. auto.
Defined.

Lemma confirmation_prompt_not_spoken_witness :
  Consumer._provide_command_feedback
    {| success := false;
       message := "Command 'shutdown_system' requires confirmation. Please confirm to proceed.";
       data := Some {[ "requires_confirmation" := VBool true ]};
       error := Some "Confirmation required";
       execution_time := 0; result_timestamp := 0 |}
    Sample.idle_loop
  = Ret (EventLoop.speak
           "I'm sorry, command 'shutdown_system' requires confirmation. please confirm to proceed."
           Sample.idle_loop).
Proof.
  apply (confirmation_prompt_not_spoken
           {| success := false;
              message := "Command 'shutdown_system' requires confirmation. Please confirm to proceed.";
              data := Some {[ "requires_confirmation" := VBool true ]};
              error := Some "Confirmation required";
              execution_time := 0; result_timestamp := 0 |}
           Sample.idle_loop).
  - reflexivity.
  - left. reflexivity.
Defined.

Lemma failure_without_error_gets_no_feedback_witness :
  exists result p',
    Consumer.main_loop_turn Sample.remote_down 1 2
      (Consumer.set_loop
         (EventLoop.set_queue [Sample.heard_after_hotkey "open chrome"])
         (Sample.pipeline (Some true) Sample.quiet_dispatcher))
    = inl (Consumer.Done result p')
    /\ success result = false
    /\ spoken (loop p') = []
    /\ command_queue (loop p') = [].
Proof.
  eexists _, _. split.
  - eapply (failure_without_error_gets_no_feedback Sample.remote_down 1 2
              (Consumer.set_loop
                 (EventLoop.set_queue [Sample.heard_after_hotkey "open chrome"])
                 (Sample.pipeline (Some true) Sample.quiet_dispatcher))
              _ (Sample.heard_after_hotkey "open chrome") []).
    + reflexivity.
    + vm_compute. reflexivity.
    + reflexivity.
    + reflexivity.
  - split; [reflexivity |]. split; reflexivity.
Defined.

Lemma blank_text_is_wake_word_witness :
  EventLoop._is_wake_word Sample.idle_loop "   " = true.
Proof.
  apply (blank_text_is_wake_word Sample.idle_loop "   "); reflexivity.
Defined.

Lemma hotkey_enqueues_at_the_end_witness :
  let item := {| queued_text := "open chrome"; queued_at := 7; source := "hotkey" |} in
  let r := EventLoop._handle_hotkey_activation (Some "open chrome") 7 None
             (EventLoop.set_queue [Sample.queued 0; Sample.queued 1] Sample.idle_loop) in
  snd r = 0
  /\ command_queue (fst r) = [Sample.queued 0; Sample.queued 1] ++ [item]
  /\ spoken (fst r) = []
  /\ hotkey_active (fst r) = false
  /\ Consumer.queue_get (command_queue (fst r))
     = Some (Sample.queued 0, [Sample.queued 1] ++ [item]).
Proof.
  apply (hotkey_enqueues_at_the_end
           (EventLoop.set_queue [Sample.queued 0; Sample.queued 1] Sample.idle_loop)
           7 None "open chrome"); reflexivity.
Defined.
